(** * Dashboard de RH: the data-preparation, filtering and KPI pipeline of app.py

    A shallow embedding of [prepare_df], of the sidebar filter script
    ([apply_in] and the mask statements that follow it) and of the six
    KPI functions of [src/app.py], together with the properties of the
    specification that concern them.

    Modelling conventions.
    - A pandas [DataFrame] is a column index (label to dtype) and a list of
      rows; a row maps column labels to values, and a label without a
      value is the null cell (NaN / None / NaT).
    - float64 and int64 values are idealised as exact rationals ([Qc]); NaN
      is the null cell.  Overflow and infinities are outside the model.
    - Strings are byte strings; case mapping and white space are ASCII.
    - Library conversions whose grammar is not part of the repository
      (number and date parsing, printing of numbers and dates, the part
      of the regular-expression engine beyond literals and [.]) are
      fields of the class [Pandas]; every theorem holds for every
      instance, and [plain_pandas] is one concrete instance used to run
      the definitions.
    - [prepare_df] assigns to the table it is given: its statements live in
      a state-and-exception monad over that table; the filter script
      rebinds [df_f] and only needs exceptions. *)

From Stdlib Require Import Ascii String QArith Qcanon Qround Permutation.
From stdpp Require Import gmap strings list fin_maps numbers.

Local Open Scope Z_scope.

(** ** Exceptions and the two monads of the script *)

Inductive PyErr := AttributeError | TypeError | KeyError | ReError.

Global Instance PyErr_eq_dec : EqDecision PyErr.
Proof. solve_decision. Defined.

(** A computation that either raises or returns. *)
Definition result (A : Type) : Type := PyErr + A.
Abbreviation Ok := (@inr PyErr _).
Abbreviation Raise := (@inl PyErr _).

Definition rbind {A B} (m : result A) (k : A → result B) : result B :=
  match m with
  | inl e => inl e
  | inr a => k a
  end.

Fixpoint mapM {A B} (f : A → result B) (l : list A) : result (list B) :=
  match l with
  | [] => Ok []
  | x :: l' => rbind (f x) (λ y, rbind (mapM f l') (λ ys, Ok (y :: ys)))
  end.

(** ** Dates *)

(** [datetime.date] *)
Record Date := mkDate { d_year : Z; d_month : Z; d_day : Z }.

(** [pd.Timestamp]: calendar fields plus nanoseconds since midnight. *)
Record Timestamp := mkTs { year : Z; month : Z; day : Z; nanos : Z }.

Global Instance Date_eq_dec : EqDecision Date.
Proof. solve_decision. Defined.
Global Instance Timestamp_eq_dec : EqDecision Timestamp.
Proof. solve_decision. Defined.

Definition NS_PER_DAY : Z := 86400 * 1000000000.

(** Days since 1970-01-01 of a proleptic Gregorian date. *)
Definition days_from_civil (y m d : Z) : Z :=
  let y' := if m <=? 2 then y - 1 else y in
  let era := y' / 400 in
  let yoe := y' - era * 400 in
  let mp := (m + 9) mod 12 in
  let doy := (153 * mp + 2) / 5 + d - 1 in
  let doe := yoe * 365 + yoe / 4 - yoe / 100 + doy in
  era * 146097 + doe - 719468.

(** [Timestamp.value]: nanoseconds since the epoch. *)
Definition ts_value (t : Timestamp) : Z :=
  days_from_civil (year t) (month t) (day t) * NS_PER_DAY + nanos t.

(** [pd.Timestamp(d)] and [pd.to_datetime(d)] for a [datetime.date]. *)
Definition Timestamp_of_date (d : Date) : Timestamp :=
  mkTs (d_year d) (d_month d) (d_day d) 0.

(** [(a - b).days]: a Timedelta's whole days, rounded down. *)
Definition timedelta_days (a b : Timestamp) : Z :=
  (ts_value a - ts_value b) / NS_PER_DAY.

Definition ts_le (a b : Timestamp) : bool := ts_value a <=? ts_value b.

(** ** Cells, rows and tables *)

Inductive Value :=
  | VNum (q : Qc)
  | VStr (s : string)
  | VDate (t : Timestamp).

Global Instance Value_eq_dec : EqDecision Value.
Proof. solve_decision. Defined.

(** A cell is [option Value]; [None] is NaN / None / NaT. *)
Abbreviation Cell := (option Value).
Abbreviation Row := (gmap string Value).

Inductive Dtype := DObject | DNumber | DDatetime.

Global Instance Dtype_eq_dec : EqDecision Dtype.
Proof. solve_decision. Defined.

Record DataFrame := mkDF {
  columns : gmap string Dtype;
  rows : list Row
}.

(** [c in df.columns] *)
Definition has_column (df : DataFrame) (c : string) : bool :=
  bool_decide (is_Some (columns df !! c)).

(** [r\[c\] = v] on one row. *)
Definition set_cell (c : string) (v : Cell) (r : Row) : Row :=
  partial_alter (λ _, v) c r.

(** [df\[c\] = <series computed row by row>]: the column gets dtype [d]. *)
Definition assign (c : string) (d : Dtype) (f : Row → Cell) (df : DataFrame)
  : DataFrame :=
  mkDF (<[c := d]> (columns df)) (map (λ r, set_cell c (f r) r) (rows df)).

(** [df\[mask\]] with a row-wise mask. *)
Definition filter_rows (p : Row → bool) (df : DataFrame) : DataFrame :=
  mkDF (columns df) (List.filter p (rows df)).

Definition qz (n : Z) : Qc := Qc_of_Z n.

(** ** Strings: [str.strip], [str.upper], and the regular-expression fragment *)

Definition is_space (a : ascii) : bool :=
  let n := N_of_ascii a in
  ((9 <=? n) && (n <=? 13) || (28 <=? n) && (n <=? 32))%N.

Fixpoint lstrip (s : string) : string :=
  match s with
  | EmptyString => EmptyString
  | String a s' => if is_space a then lstrip s' else s
  end.

Fixpoint rstrip (s : string) : string :=
  match s with
  | EmptyString => EmptyString
  | String a s' =>
      match rstrip s' with
      | EmptyString => if is_space a then EmptyString else String a EmptyString
      | t => String a t
      end
  end.

Definition strip (s : string) : string := rstrip (lstrip s).

Definition upper_ascii (a : ascii) : ascii :=
  let n := N_of_ascii a in
  if ((97 <=? n) && (n <=? 122))%N then ascii_of_N (n - 32) else a.

Definition lower_ascii (a : ascii) : ascii :=
  let n := N_of_ascii a in
  if ((65 <=? n) && (n <=? 90))%N then ascii_of_N (n + 32) else a.

Fixpoint str_map (f : ascii → ascii) (s : string) : string :=
  match s with
  | EmptyString => EmptyString
  | String a s' => String (f a) (str_map f s')
  end.

Definition upper : string → string := str_map upper_ascii.
Definition lower : string → string := str_map lower_ascii.

(** The pattern characters that are not literals for [re]. *)
Definition is_meta (a : ascii) : bool :=
  bool_decide (a ∈ list_ascii_of_string ".^$*+?{}[]\|()").

Inductive atom := ALit (a : ascii) | AAny.

(** Patterns made of literals and [.] are compiled here; every other
    pattern is left to the engine ([re_other] below). *)
Fixpoint re_parse (pat : string) : option (list atom) :=
  match pat with
  | EmptyString => Some []
  | String a pat' =>
      if bool_decide (a = "."%char) then (AAny ::.) <$> re_parse pat'
      else if is_meta a then None
      else (ALit a ::.) <$> re_parse pat'
  end.

(** One atom against one character under [re.IGNORECASE]. *)
Definition atom_matches (x : atom) (c : ascii) : bool :=
  match x with
  | ALit a => bool_decide (lower_ascii a = lower_ascii c)
  | AAny => negb (bool_decide (c = "010"%char))
  end.

Fixpoint match_here (xs : list atom) (s : string) : bool :=
  match xs, s with
  | [], _ => true
  | _ :: _, EmptyString => false
  | x :: xs', String c s' => atom_matches x c && match_here xs' s'
  end.

(** [re.search]: a match starting at some position of [s]. *)
Fixpoint re_search (xs : list atom) (s : string) : bool :=
  match_here xs s ||
  match s with
  | EmptyString => false
  | String _ s' => re_search xs s'
  end.

(** ** Library conversions left abstract *)

Class Pandas := {
  (** [str(x)] of a float or int, of a Timestamp *)
  str_of_number : Qc → string;
  str_of_timestamp : Timestamp → string;
  (** [pd.to_numeric] on one string; [None] when it does not parse *)
  parse_number : string → option Qc;
  (** [pd.to_datetime(..., dayfirst=True)] on one string or one number *)
  parse_datetime : string → option Timestamp;
  timestamp_of_number : Qc → option Timestamp;
  (** [pd.to_numeric] on one cell of a datetime64 column *)
  number_of_datetime : option Timestamp → Qc;
  (** [re.compile(pat, re.IGNORECASE)] for patterns outside the fragment *)
  re_other : string → result (string → bool);
  (** [float(s.sum())] and [float(s.mean())] of an object column *)
  sum_object : list Cell → result Qc;
  mean_object : list Cell → result Qc
}.

(** A concrete instance: decimal digits parse as numbers, nothing parses as
    a date, and the engine rejects every pattern outside the fragment. *)
Fixpoint digits_value (acc : Z) (s : string) : option Z :=
  match s with
  | EmptyString => Some acc
  | String a s' =>
      let n := Z.of_N (N_of_ascii a) in
      if (48 <=? n) && (n <=? 57) then digits_value (10 * acc + (n - 48)) s'
      else None
  end.

Definition plain_parse_number (s : string) : option Qc :=
  match s with
  | EmptyString => None
  | _ => qz <$> digits_value 0 s
  end.

Definition plain_pandas : Pandas := {|
  str_of_number := λ _, "0"%string;
  str_of_timestamp := λ _, "2000-01-01 00:00:00"%string;
  parse_number := plain_parse_number;
  parse_datetime := λ _, None;
  timestamp_of_number := λ _, None;
  number_of_datetime := λ _, 0%Qc;
  re_other := λ _, Raise ReError;
  sum_object := λ _, Raise TypeError;
  mean_object := λ _, Raise TypeError
|}.

(** ** The statement monad: one table mutated in place, with exceptions

    [prepare_df] assigns to the columns of the table it is given and
    returns that same table.  A statement is a function from the table's
    current contents to its new contents and an outcome. *)

Definition Py (A : Type) : Type := DataFrame → DataFrame * result A.

Definition ret {A} (a : A) : Py A := λ df, (df, Ok a).

Definition bind {A B} (m : Py A) (k : A → Py B) : Py B :=
  λ df, match m df with
        | (df', inl e) => (df', inl e)
        | (df', inr a) => k a df'
        end.

Definition raise {A} (e : PyErr) : Py A := λ df, (df, Raise e).

Definition get : Py DataFrame := λ df, (df, Ok df).

Definition modify (f : DataFrame → DataFrame) : Py unit := λ df, (f df, Ok tt).

(** [c in df.columns] *)
Definition contains (c : string) : Py bool := λ df, (df, Ok (has_column df c)).

(** The dtype of [df\[c\]]; [df\[c\]] raises KeyError for a missing label. *)
Definition series_dtype (c : string) : Py Dtype :=
  λ df, match columns df !! c with
        | Some d => (df, Ok d)
        | None => (df, Raise KeyError)
        end.

Declare Scope py_scope.
Delimit Scope py_scope with py.
Notation "x <- c1 ;; c2" := (bind c1 (λ x, c2))
  (at level 100, c1 at next level, right associativity) : py_scope.
Notation "c1 ;; c2" := (bind c1 (λ _, c2))
  (at level 100, right associativity) : py_scope.

Fixpoint for_each {A} (l : list A) (body : A → Py unit) : Py unit :=
  match l with
  | [] => ret tt
  | x :: l' => (body x ;; for_each l' body)%py
  end.

(** ** The system clock *)

Record World := mkWorld { clock_now : Timestamp }.

(** [date.today()] *)
Definition date_today (w : World) : Date :=
  mkDate (year (clock_now w)) (month (clock_now w)) (day (clock_now w)).

(** ** prepare_df *)

Definition DATE_COLS : list string :=
  ["Data de Nascimento"; "Data de Contratacao"; "Data de Demissao"]%string.

Definition CURRENCY_COLS : list string :=
  ["Salario Base"; "Impostos"; "Beneficios"; "VT"; "VR"]%string.

(** [df.select_dtypes(include="object").columns] *)
Definition object_columns (df : DataFrame) : list string :=
  (map_to_list (filter (λ kd, kd.2 = DObject) (columns df))).*1.

Definition notna (c : Cell) : bool := bool_decide (is_Some c).

Definition as_timestamp (c : Cell) : option Timestamp :=
  match c with
  | Some (VDate t) => Some t
  | _ => None
  end.

(** [Series.fillna(q)] on one cell *)
Definition fillna (q : Qc) (c : Cell) : Cell :=
  match c with
  | None => Some (VNum q)
  | _ => c
  end.

(** [Series.str.upper()] on one cell of an object column *)
Definition str_upper (c : Cell) : Cell :=
  match c with
  | Some (VStr s) => Some (VStr (upper s))
  | _ => None
  end.

(** [.replace({"MASCULINO": "M", "FEMININO": "F"})] on one cell *)
Definition replace_sexo (c : Cell) : Cell :=
  match c with
  | Some (VStr s) =>
      if decide (s = "MASCULINO"%string) then Some (VStr "M")
      else if decide (s = "FEMININO"%string) then Some (VStr "F")
      else c
  | _ => c
  end.

(** [((today - s).dt.days // 365).clip(lower=0)] on one cell *)
Definition idade (today : Timestamp) (c : Cell) : Cell :=
  match c with
  | Some (VDate b) => Some (VNum (qz (Z.max 0 (timedelta_days today b / 365))))
  | _ => None
  end.

(** [((today.year - s.dt.year) * 12 + (today.month - s.dt.month)).clip(lower=0)]
    on one cell *)
Definition meses (today : Timestamp) (c : Cell) : Cell :=
  match c with
  | Some (VDate h) =>
      Some (VNum (qz (Z.max 0 ((year today - year h) * 12 + (month today - month h)))))
  | _ => None
  end.

Definition number_or_zero (c : Cell) : Qc :=
  match c with
  | Some (VNum q) => q
  | _ => 0%Qc
  end.

(** [df\[cols\].sum(axis=1)] on one row (null cells are skipped) *)
Definition sum_axis1 (cols : list string) (r : Row) : Qc :=
  foldr Qcplus 0%Qc (map (λ c, number_or_zero (r !! c)) cols).

Section prepare.
Context `{Pandas}.

(** [Series.astype(str)] on one cell *)
Definition astype_str (c : Cell) : string :=
  match c with
  | None => "nan"%string
  | Some (VStr s) => s
  | Some (VNum q) => str_of_number q
  | Some (VDate t) => str_of_timestamp t
  end.

(** [pd.to_datetime(s, dayfirst=True, errors="coerce")] on one cell *)
Definition to_datetime (c : Cell) : Cell :=
  match c with
  | None => None
  | Some (VDate t) => Some (VDate t)
  | Some (VStr s) => VDate <$> parse_datetime s
  | Some (VNum q) => VDate <$> timestamp_of_number q
  end.

(** [pd.to_numeric(s, errors="coerce")] on one cell of a column of dtype [d] *)
Definition to_numeric (d : Dtype) (c : Cell) : Cell :=
  match d with
  | DDatetime => Some (VNum (number_of_datetime (as_timestamp c)))
  | _ =>
      match c with
      | Some (VNum q) => Some (VNum q)
      | Some (VStr s) => VNum <$> parse_number s
      | _ => None
      end
  end.

(** The five blocks of [prepare_df], in source order. *)

(** [# Padroniza textos] *)
Definition padroniza_textos : Py unit :=
  ( df0 <- get ;;
    for_each (object_columns df0) (λ c,
      modify (assign c DObject (λ r, Some (VStr (strip (astype_str (r !! c)))))))
  )%py.

(** [# Datas] *)
Definition datas : Py unit :=
  for_each DATE_COLS (λ c,
    ( b <- contains c ;;
      if b : bool then modify (assign c DDatetime (λ r, to_datetime (r !! c)))
      else ret tt )%py).

(** [# Padroniza Sexo]; the [.str] accessor exists on object columns only. *)
Definition padroniza_sexo : Py unit :=
  ( b <- contains "Sexo" ;;
    if b : bool then
      d <- series_dtype "Sexo" ;;
      if decide (d = DObject) then
        modify (assign "Sexo" DObject (λ r, replace_sexo (str_upper (r !! "Sexo"))))
      else raise AttributeError
    else ret tt )%py.

(** [# Garante numericos] *)
Definition garante_numericos : Py unit :=
  for_each CURRENCY_COLS (λ col,
    ( b <- contains col ;;
      (if b : bool then ret tt
       else modify (assign col DNumber (λ _, Some (VNum 0%Qc)))) ;;
      d <- series_dtype col ;;
      modify (assign col DNumber (λ r, fillna 0%Qc (to_numeric d (r !! col)))) )%py).

(** [# Colunas derivadas]; the [.dt] accessor exists on datetime columns only. *)
Definition colunas_derivadas (today : Timestamp) : Py unit :=
  ( b <- contains "Data de Nascimento" ;;
    (if b : bool then
       d <- series_dtype "Data de Nascimento" ;;
       if decide (d = DDatetime) then
         modify (assign "Idade" DNumber (λ r, idade today (r !! "Data de Nascimento")))
       else raise AttributeError
     else ret tt) ;;
    b <- contains "Data de Contratacao" ;;
    (if b : bool then
       d <- series_dtype "Data de Contratacao" ;;
       if decide (d = DDatetime) then
         modify (assign "Tempo de Casa (meses)" DNumber
                   (λ r, meses today (r !! "Data de Contratacao")))
       else raise AttributeError
     else ret tt) ;;
    b <- contains "Data de Demissao" ;;
    (if b : bool then
       modify (assign "Status" DObject
                 (λ r, Some (VStr (if notna (r !! "Data de Demissao")
                                   then "Desligado" else "Ativo"))))
     else modify (assign "Status" DObject (λ _, Some (VStr "Ativo")))) ;;
    modify (assign "Custo Total Mensal" DNumber
              (λ r, Some (VNum (sum_axis1 CURRENCY_COLS r)))) )%py.

(** [prepare_df(df)]: [today] is read from the system clock, and the table
    returned is the table that was passed in. *)
Definition prepare_df (w : World) : Py DataFrame :=
  ( padroniza_textos ;;
    datas ;;
    padroniza_sexo ;;
    garante_numericos ;;
    colunas_derivadas (Timestamp_of_date (date_today w)) ;;
    get )%py.

(** [load_from_path] / [load_from_bytes] after [pd.read_excel]: the table
    returned by [prepare_df], or the exception it raised. *)
Definition load (w : World) (raw : DataFrame) : result DataFrame :=
  (prepare_df w raw).2.

End prepare.

(** ** The sidebar filters (lines 211-291 of app.py) *)

(** What the widgets hand to the filter script.  [msel] offers
    [df\[col\].dropna().unique()], so a selection holds values, never the
    null cell; [date_input] and [slider] give a pair or nothing. *)
Record Filters := mkFilters {
  area_sel : list Value;
  nivel_sel : list Value;
  cargo_sel : list Value;
  sexo_sel : list Value;
  status_sel : list Value;
  nome_busca : string;
  periodo_d1 : option Date;
  periodo_d2 : option Date;
  periodo_d3 : option Date;
  periodo_d4 : option Date;
  faixa_idade : option (Qc * Qc);
  faixa_sal : option (Qc * Qc)
}.

(** The values of [df\[c\]], row by row. *)
Definition column (df : DataFrame) (c : string) : list Cell :=
  map (λ r : Row, r !! c) (rows df).

(** Boolean indexing of a list by a mask. *)
Fixpoint select {A} (mask : list bool) (l : list A) : list A :=
  match mask, l with
  | b :: mask', x :: l' => if b then x :: select mask' l' else select mask' l'
  | _, _ => []
  end.

(** [df\[mask\]] *)
Definition getitem_mask (df : DataFrame) (mask : list bool) : DataFrame :=
  mkDF (columns df) (select mask (rows df)).

(** [Series.isin(values)] on one cell *)
Definition isin (values : list Value) (c : Cell) : bool :=
  match c with
  | Some v => bool_decide (v ∈ values)
  | None => false
  end.

Definition apply_in (df_ : DataFrame) (col : string) (values : list Value)
  : DataFrame :=
  if bool_decide (values ≠ []) && has_column df_ col
  then getitem_mask df_ (map (isin values) (column df_ col))
  else df_.

(** [(s >= lo) & (s <= hi)] for numbers [lo], [hi]: on a float column a
    null compares false; on an object column the comparison is made
    element by element and a string raises; a datetime column raises. *)
Definition in_range (lo hi q : Qc) : bool :=
  bool_decide (lo ≤ q)%Qc && bool_decide (q ≤ hi)%Qc.

Definition range_mask (d : Dtype) (lo hi : Qc) (cells : list Cell)
  : result (list bool) :=
  match d with
  | DNumber =>
      Ok (map (λ c, match c with
                    | Some (VNum q) => in_range lo hi q
                    | _ => false
                    end) cells)
  | DObject =>
      mapM (λ c, match c with
                 | None => Ok false
                 | Some (VNum q) => Ok (in_range lo hi q)
                 | Some _ => Raise TypeError
                 end) cells
  | DDatetime => Raise TypeError
  end.

(** [s.isna() | ((s >= t1) & (s <= t2))] for Timestamps [t1], [t2]. *)
Definition in_period (t1 t2 t : Timestamp) : bool := ts_le t1 t && ts_le t t2.

Definition period_mask (d : Dtype) (t1 t2 : Timestamp) (cells : list Cell)
  : result (list bool) :=
  match d with
  | DDatetime =>
      Ok (map (λ c, match c with
                    | None => true
                    | Some (VDate t) => in_period t1 t2 t
                    | Some _ => false
                    end) cells)
  | DObject =>
      mapM (λ c, match c with
                 | None => Ok true
                 | Some (VDate t) => Ok (in_period t1 t2 t)
                 | Some _ => Raise TypeError
                 end) cells
  | DNumber => Raise TypeError
  end.

(** [if faixa and col in df_f.columns: df_f = df_f\[(df_f\[col\] >= faixa\[0\])
    & (df_f\[col\] <= faixa\[1\])\]] *)
Definition filter_faixa (col : string) (faixa : option (Qc * Qc))
    (df_f : DataFrame) : result DataFrame :=
  match faixa, columns df_f !! col with
  | Some (lo, hi), Some d =>
      rbind (range_mask d lo hi (column df_f col))
            (λ mask, Ok (getitem_mask df_f mask))
  | _, _ => Ok df_f
  end.

(** [if da and db and col in df_f.columns: df_f = df_f\[df_f\[col\].isna() |
    ((df_f\[col\] >= pd.to_datetime(da)) & (df_f\[col\] <= pd.to_datetime(db)))\]] *)
Definition filter_periodo (col : string) (da db : option Date)
    (df_f : DataFrame) : result DataFrame :=
  match da, db, columns df_f !! col with
  | Some a, Some b, Some d =>
      rbind (period_mask d (Timestamp_of_date a) (Timestamp_of_date b)
               (column df_f col))
            (λ mask, Ok (getitem_mask df_f mask))
  | _, _, _ => Ok df_f
  end.

Section filters.
Context `{Pandas}.

(** [re.compile(pat, re.IGNORECASE).search] *)
Definition re_compile (pat : string) : result (string → bool) :=
  match re_parse pat with
  | Some xs => Ok (re_search xs)
  | None => re_other pat
  end.

(** [s.str.contains(pat, case=False, na=False)] on a column of dtype [d]:
    the accessor is checked first, then the pattern is compiled, then each
    cell is searched; a cell that is not a string counts as no match. *)
Definition str_contains (d : Dtype) (pat : string) (cells : list Cell)
  : result (list bool) :=
  if decide (d = DObject) then
    rbind (re_compile pat)
          (λ m, Ok (map (λ c, match c with
                              | Some (VStr s) => m s
                              | _ => false
                              end) cells))
  else Raise AttributeError.

(** [if nome_busca and "Nome Completo" in df_f.columns: ...] *)
Definition filter_nome (busca : string) (df_f : DataFrame) : result DataFrame :=
  match columns df_f !! "Nome Completo"%string with
  | Some d =>
      if bool_decide (busca ≠ ""%string) then
        rbind (str_contains d busca (column df_f "Nome Completo"))
              (λ mask, Ok (getitem_mask df_f mask))
      else Ok df_f
  | None => Ok df_f
  end.

(** The filter statements in source order. *)
Definition filter_steps (f : Filters) : list (DataFrame → result DataFrame) :=
  [ (λ df_f, Ok (apply_in df_f "Área" (area_sel f)));
    (λ df_f, Ok (apply_in df_f "Nível" (nivel_sel f)));
    (λ df_f, Ok (apply_in df_f "Cargo" (cargo_sel f)));
    (λ df_f, Ok (apply_in df_f "Sexo" (sexo_sel f)));
    (λ df_f, Ok (apply_in df_f "Status" (status_sel f)));
    filter_nome (nome_busca f);
    filter_faixa "Idade" (faixa_idade f);
    filter_faixa "Salario Base" (faixa_sal f);
    filter_periodo "Data de Contratacao" (periodo_d1 f) (periodo_d2 f);
    filter_periodo "Data de Demissao" (periodo_d3 f) (periodo_d4 f) ].

(** Statements run one after the other; the first exception ends the run. *)
Fixpoint run_steps (steps : list (DataFrame → result DataFrame))
    (df : DataFrame) : result DataFrame :=
  match steps with
  | [] => Ok df
  | s :: steps' => rbind (s df) (run_steps steps')
  end.

(** [# Aplica filtros]: [df_f = df.copy()] and the statements after it. *)
Definition apply_filters (f : Filters) (df : DataFrame) : result DataFrame :=
  let df_f := df in
  let df_f := apply_in df_f "Área" (area_sel f) in
  let df_f := apply_in df_f "Nível" (nivel_sel f) in
  let df_f := apply_in df_f "Cargo" (cargo_sel f) in
  let df_f := apply_in df_f "Sexo" (sexo_sel f) in
  let df_f := apply_in df_f "Status" (status_sel f) in
  rbind (filter_nome (nome_busca f) df_f) (λ df_f,
  rbind (filter_faixa "Idade" (faixa_idade f) df_f) (λ df_f,
  rbind (filter_faixa "Salario Base" (faixa_sal f) df_f) (λ df_f,
  rbind (filter_periodo "Data de Contratacao" (periodo_d1 f) (periodo_d2 f) df_f) (λ df_f,
  filter_periodo "Data de Demissao" (periodo_d3 f) (periodo_d4 f) df_f)))).

End filters.

(** ** KPIs *)

(** A Python float: [None] is NaN. *)
Abbreviation float := (option Qc).

Definition status_is (s : string) (r : Row) : bool :=
  bool_decide (r !! "Status"%string = Some (VStr s)).

Definition k_headcount_ativo (df : DataFrame) : Z :=
  if has_column df "Status"
  then Z.of_nat (List.length (List.filter (status_is "Ativo") (rows df)))
  else 0.

Definition k_desligados (df : DataFrame) : Z :=
  if has_column df "Status"
  then Z.of_nat (List.length (List.filter (status_is "Desligado") (rows df)))
  else 0.

(** [Series.dropna()] *)
Definition dropna (cells : list Cell) : list Cell := List.filter notna cells.


Section kpis.
Context `{Pandas}.







End kpis.

(** ** Closed forms of the blocks of [prepare_df]

    Each block rewrites cells row by row and column by column; these
    functions give the same result without the statement monad. *)

(** [for c in l: r\[c\] = g c r\[c\]] on one row. *)
Definition update_row (l : list string) (g : string → Cell → Cell) (r : Row) : Row :=
  foldl (λ r c, set_cell c (g c (r !! c)) r) r l.

(** [for c in l: df\[c\] = <g c applied to df\[c\]>], the columns getting dtype [d]. *)
Definition update_cols (l : list string) (d : Dtype) (g : string → Cell → Cell)
    (df : DataFrame) : DataFrame :=
  foldl (λ df c, assign c d (λ r, g c (r !! c)) df) df l.

(** The column index after assigning dtype [d] to every label of [l]. *)
Definition insert_all (l : list string) (d : Dtype) (m : gmap string Dtype) :=
  foldl (λ m c, <[c := d]> m) m l.

(** [c in df.columns], from the column index alone. *)
Definition flag (cols : gmap string Dtype) (c : string) : bool :=
  bool_decide (is_Some (cols !! c)).

(** One row through [# Colunas derivadas], on a table with column index [cols]. *)
Definition derive_row (today : Timestamp) (cols : gmap string Dtype) (r : Row) : Row :=
  let r := if flag cols "Data de Nascimento"
           then set_cell "Idade" (idade today (r !! "Data de Nascimento"%string)) r
           else r in
  let r := if flag cols "Data de Contratacao"
           then set_cell "Tempo de Casa (meses)"
                  (meses today (r !! "Data de Contratacao"%string)) r
           else r in
  let r := set_cell "Status"
             (Some (VStr (if flag cols "Data de Demissao" &&
                             notna (r !! "Data de Demissao"%string)
                          then "Desligado" else "Ativo"))) r in
  set_cell "Custo Total Mensal" (Some (VNum (sum_axis1 CURRENCY_COLS r))) r.

(** The column index after [# Colunas derivadas]. *)
Definition derive_cols (cols : gmap string Dtype) : gmap string Dtype :=
  let m := if flag cols "Data de Nascimento" then <["Idade"%string := DNumber]> cols else cols in
  let m := if flag cols "Data de Contratacao"
           then <["Tempo de Casa (meses)"%string := DNumber]> m else m in
  <["Custo Total Mensal"%string := DNumber]> (<["Status"%string := DObject]> m).

(** The date columns the table has. *)
Definition present_dates (cols : gmap string Dtype) : list string :=
  List.filter (flag cols) DATE_COLS.

(** The "Sexo" column is absent or a text column: [.str] will not raise. *)
Definition sexo_ok (cols : gmap string Dtype) : bool :=
  match cols !! "Sexo"%string with
  | Some DObject | None => true
  | Some _ => false
  end.

(** The column index after [# Datas], and after [# Garante numericos]. *)
Definition cols_datas (cols : gmap string Dtype) : gmap string Dtype :=
  insert_all (present_dates cols) DDatetime cols.

Definition cols_num (cols : gmap string Dtype) : gmap string Dtype :=
  insert_all CURRENCY_COLS DNumber cols.

(** One row through [# Padroniza Sexo]. *)
Definition sexo_row (cols : gmap string Dtype) (r : Row) : Row :=
  match cols !! "Sexo"%string with
  | Some _ => set_cell "Sexo" (replace_sexo (str_upper (r !! "Sexo"%string))) r
  | None => r
  end.

(** The labels [# Colunas derivadas] assigns to. *)
Definition DERIVED_COLS : list string :=
  ["Idade"; "Tempo de Casa (meses)"; "Status"; "Custo Total Mensal"]%string.

Section closed_forms.
Context `{Pandas}.

(** [.astype(str).str.strip()] on one cell. *)
Definition text_cell (c : Cell) : Cell := Some (VStr (strip (astype_str c))).

(** The cell of column [c] after [# Padroniza textos]. *)
Definition text_fix (cols : gmap string Dtype) (c : string) (x : Cell) : Cell :=
  if decide (cols !! c = Some DObject) then text_cell x else x.

(** One currency cell through [# Garante numericos]; [d] is the dtype of its
    column, [None] when the column is absent. *)
Definition currency_cell (d : option Dtype) (c : Cell) : Cell :=
  match d with
  | None => Some (VNum 0%Qc)
  | Some d => fillna 0%Qc (to_numeric d c)
  end.

(** One row through [# Padroniza textos] and [# Datas]. *)
Definition normalize_row (cols : gmap string Dtype) (r : Row) : Row :=
  update_row (present_dates cols) (λ _, to_datetime)
    (update_row (object_columns (mkDF cols [])) (λ _, text_cell) r).

(** One row through the whole of [prepare_df]. *)
Definition prepare_row (w : World) (cols : gmap string Dtype) (r : Row) : Row :=
  derive_row (Timestamp_of_date (date_today w)) cols
    (update_row CURRENCY_COLS (λ c, currency_cell (cols !! c))
       (sexo_row cols (normalize_row cols r))).

End closed_forms.

(** ** Example tables and clocks *)

(** Rows and tables written as association lists. *)
Definition row_of (l : list (string * Value)) : Row := list_to_map l.
Definition table_of (cols : list (string * Dtype)) (rs : list (list (string * Value)))
  : DataFrame :=
  mkDF (list_to_map cols) (map row_of rs).

(** The table a run would have returned, or the input when it raised. *)
Definition loaded (w : World) (raw : DataFrame) : DataFrame :=
  match load (H := plain_pandas) w raw with
  | inr out => out
  | inl _ => raw
  end.

Definition clock_2021_03_01 : World := mkWorld (mkTs 2021 3 1 (9 * 3600 * 1000000000)).

(** One employee with a salary of -500. *)
Definition negative_salary_table : DataFrame :=
  table_of [("Nome Completo", DObject); ("Salario Base", DNumber)]%string
           [[("Nome Completo", VStr "Ana"); ("Salario Base", VNum (qz (-500)))]]%string.

(** One employee hired on 2020-01-15 and born on 1990-06-30. *)
Definition hire_table : DataFrame :=
  table_of [("Nome Completo", DObject); ("Data de Contratacao", DDatetime);
            ("Data de Nascimento", DDatetime)]%string
           [[("Nome Completo", VStr "Ana");
             ("Data de Contratacao", VDate (mkTs 2020 1 15 0));
             ("Data de Nascimento", VDate (mkTs 1990 6 30 0))]]%string.

(** A sheet whose "Sexo" column holds the codes 1 and 2. *)
Definition sexo_codes_table : DataFrame :=
  table_of [("Nome Completo", DObject); ("Sexo", DNumber)]%string
           [[("Nome Completo", VStr "Ana"); ("Sexo", VNum (qz 2))];
            [("Nome Completo", VStr "Rui"); ("Sexo", VNum (qz 1))]]%string.

(** ** Typing of the columns the filters and the KPIs compare or add up *)

Definition numeric_or_absent (cols : gmap string Dtype) (c : string) : bool :=
  match cols !! c with
  | None | Some DNumber => true
  | Some _ => false
  end.

Definition datetime_or_absent (cols : gmap string Dtype) (c : string) : bool :=
  match cols !! c with
  | None | Some DDatetime => true
  | Some _ => false
  end.

(** Age and base salary hold numbers, the two period columns hold dates. *)
Definition filter_targets_typed (cols : gmap string Dtype) : bool :=
  numeric_or_absent cols "Idade" && numeric_or_absent cols "Salario Base" &&
  datetime_or_absent cols "Data de Contratacao" &&
  datetime_or_absent cols "Data de Demissao".


(** A filter statement that, on every table with column index [cols], either
    raises [e0] whatever the rows, or keeps the rows satisfying a predicate. *)
Definition stable (e0 : PyErr) (cols : gmap string Dtype)
    (s : DataFrame → result DataFrame) : Prop :=
  (∀ rs, s (mkDF cols rs) = Raise e0) ∨
  (∃ p, ∀ rs, s (mkDF cols rs) = Ok (mkDF cols (List.filter p rs))).


(** No filter configured. *)
Definition no_filters : Filters :=
  mkFilters [] [] [] [] [] "" None None None None None None.

Section filter_forms.
Context `{Pandas}.

(** The exception the name filter raises on tables with column index
    [cols], if it raises at all. *)
Definition nome_exception (busca : string) (cols : gmap string Dtype) : PyErr :=
  match filter_nome busca (mkDF cols []) with
  | inl e => e
  | inr _ => AttributeError
  end.

End filter_forms.

(** A sheet without birth dates whose "Idade" column was typed as text. *)
Definition age_text_table : DataFrame :=
  table_of [("Nome Completo", DObject); ("Idade", DObject); ("Salario Base", DNumber)]%string
           [[("Nome Completo", VStr "Ana"); ("Idade", VStr "30");
             ("Salario Base", VNum (qz 1000))];
            [("Nome Completo", VStr "Rui"); ("Idade", VStr "45");
             ("Salario Base", VNum (qz 2000))]]%string.

(** Search for "zzz" with both sliders at their defaults: [int(min)] to
    [int(max)] of the ages, 30 to 45, and the salaries from 1000 to 2000. *)
Definition age_text_filters : Filters :=
  mkFilters [] [] [] [] [] "zzz" None None None None
            (Some (qz 30, qz 45)) (Some (qz 1000, qz 2000)).



(** The first row of a table. *)
Definition first_row (df : DataFrame) : Row := default ∅ (head (rows df)).

(** Only the name search is set, to the text "an". *)
Definition search_an : Filters :=
  mkFilters [] [] [] [] [] "an" None None None None None None.

(** ** Definitions for the further properties *)

(** A statement that returns the table it is given or a selection of its
    rows. *)
Definition narrows (s : DataFrame → result DataFrame) : Prop :=
  ∀ df out, s df = Ok out →
    columns out = columns df ∧ sublist (rows out) (rows df).

(** ** The sidebar widgets at their default values (lines 220-258) *)

Definition as_number (c : Cell) : option Qc :=
  match c with
  | Some (VNum q) => Some q
  | _ => None
  end.

(** The values of a float64 column and of a datetime64 column. *)
Definition number_series (df : DataFrame) (c : string) : list (option Qc) :=
  map as_number (column df c).

Definition datetime_series (df : DataFrame) (c : string) : list (option Timestamp) :=
  map as_timestamp (column df c).

(** [s.dropna()] of a typed series. *)
Definition present {A} (s : list (option A)) : list A := omap id s.

Definition qc_min (a b : Qc) : Qc := if bool_decide (a ≤ b)%Qc then a else b.
Definition qc_max (a b : Qc) : Qc := if bool_decide (a ≤ b)%Qc then b else a.
Definition ts_min (a b : Timestamp) : Timestamp := if ts_le a b then a else b.
Definition ts_max (a b : Timestamp) : Timestamp := if ts_le a b then b else a.

(** [(s.min(), s.max())], [None] when the series has no value. *)
Definition min_max (s : list (option Qc)) : option (Qc * Qc) :=
  match present s with
  | [] => None
  | x :: xs => Some (foldl qc_min x xs, foldl qc_max x xs)
  end.

(** [int(x)] of a float: truncation toward zero. *)
Definition py_int (q : Qc) : Z :=
  if bool_decide (0 ≤ q)%Qc then Qfloor q else Qceiling q.

(** [Timestamp.date()] *)
Definition date_of (t : Timestamp) : Date := mkDate (year t) (month t) (day t).

(** [date_bounds(series)] on a datetime64 column. *)
Definition date_bounds (series : list (option Timestamp)) : option (Date * Date) :=
  match present series with
  | [] => None
  | t :: ts => Some (date_of (foldl ts_min t ts), date_of (foldl ts_max t ts))
  end.

Section widgets.
(** [int(s.min()), int(s.max())] and [float(s.min()), float(s.max())] of an
    object column depend on how Python orders and converts its elements;
    they are left as parameters. *)
Variable int_bounds_object : list Cell → result (Qc * Qc).
Variable float_bounds_object : list Cell → result (Qc * Qc).

(** The period a [date_input] shows and returns until the user edits it:
    [date_bounds(df\[col\]) if col in df.columns else None].  The minimum of
    a column that is not a datetime column has no [.date()]. *)
Definition default_periodo (df : DataFrame) (col : string)
  : result (option (Date * Date)) :=
  match columns df !! col with
  | None => Ok None
  | Some d =>
      match dropna (column df col) with
      | [] => Ok None
      | _ =>
          match d with
          | DDatetime => Ok (date_bounds (datetime_series df col))
          | _ => Raise AttributeError
          end
      end
  end.

(** The range the age slider returns until the user moves it. *)
Definition default_faixa_idade (df : DataFrame) : result (option (Qc * Qc)) :=
  match columns df !! "Idade"%string with
  | None => Ok None
  | Some d =>
      match dropna (column df "Idade") with
      | [] => Ok None
      | _ =>
          match d with
          | DNumber =>
              Ok (match min_max (number_series df "Idade") with
                  | Some (lo, hi) => Some (qz (py_int lo), qz (py_int hi))
                  | None => None
                  end)
          | DObject => rbind (int_bounds_object (column df "Idade")) (λ b, Ok (Some b))
          | DDatetime => Raise TypeError
          end
      end
  end.

(** The range the salary slider returns until the user moves it. *)
Definition default_faixa_sal (df : DataFrame) : result (option (Qc * Qc)) :=
  match columns df !! "Salario Base"%string with
  | None => Ok None
  | Some d =>
      match dropna (column df "Salario Base") with
      | [] => Ok None
      | _ =>
          match d with
          | DNumber => Ok (min_max (number_series df "Salario Base"))
          | DObject =>
              rbind (float_bounds_object (column df "Salario Base")) (λ b, Ok (Some b))
          | DDatetime => Raise TypeError
          end
      end
  end.

(** What the widgets hand over on the first run, nothing selected or typed. *)
Definition default_filters (df : DataFrame) : result Filters :=
  rbind (default_periodo df "Data de Contratacao") (λ contr_bounds,
  rbind (default_periodo df "Data de Demissao") (λ demis_bounds,
  rbind (default_faixa_idade df) (λ faixa_idade,
  rbind (default_faixa_sal df) (λ faixa_sal,
  Ok (mkFilters [] [] [] [] [] ""
        (fst <$> contr_bounds) (snd <$> contr_bounds)
        (fst <$> demis_bounds) (snd <$> demis_bounds)
        faixa_idade faixa_sal))))).

End widgets.

(** A sheet with a text "Sexo" column, one cell padded and in lower case,
    one blank. *)
Definition sexo_text_table : DataFrame :=
  table_of [("Nome Completo", DObject); ("Sexo", DObject); ("Ramal", DNumber)]%string
           [[("Nome Completo", VStr " Ana "); ("Sexo", VStr " feminino");
             ("Ramal", VNum (qz 4021))];
            [("Nome Completo", VStr "Rui"); ("Ramal", VNum (qz 4022))]]%string.

(** The conversions of object columns the widgets are not given here. *)
Definition no_object_bounds (cells : list Cell) : result (Qc * Qc) := Raise TypeError.

(** * Properties *)

(** Membership in, and disjointness of, the fixed lists of column labels. *)
Ltac col_solver :=
  first
    [ by apply (bool_decide_unpack _); vm_compute
    | unfold CURRENCY_COLS, DATE_COLS, DERIVED_COLS in *; set_solver ].

Lemma date_cols_not_currency c : c ∈ DATE_COLS → c ∉ CURRENCY_COLS.
Proof. col_solver. Qed.

(** ** Rows, columns and loops *)

Lemma set_cell_lookup c v (r : Row) c' :
  set_cell c v r !! c' = if decide (c = c') then v else r !! c'.
Proof. unfold set_cell. by rewrite lookup_partial_alter. Qed.

Lemma update_row_lookup_notin l g (r : Row) c :
  c ∉ l → update_row l g r !! c = r !! c.
Proof.
  revert r. induction l as [|a l IH]; intros r Hc; [done|].
  apply not_elem_of_cons in Hc as [Hne Hc]. unfold update_row in *. simpl.
  rewrite IH by done. rewrite set_cell_lookup. by rewrite decide_False.
Qed.

Lemma update_row_lookup l g (r : Row) c :
  NoDup l →
  update_row l g r !! c = if decide (c ∈ l) then g c (r !! c) else r !! c.
Proof.
  revert r. induction l as [|a l IH]; intros r Hnd.
  - rewrite decide_False; [done|]. apply not_elem_of_nil.
  - apply list.NoDup_cons in Hnd as [Ha Hnd].
    change (update_row (a :: l) g r) with (update_row l g (set_cell a (g a (r !! a)) r)).
    destruct (decide (c = a)) as [->|Hne].
    + rewrite update_row_lookup_notin by done.
      rewrite set_cell_lookup, decide_True by done.
      rewrite decide_True; [done|]. by left.
    + rewrite IH by done. rewrite !set_cell_lookup.
      repeat case_decide; try done; set_solver.
Qed.

Lemma insert_all_lookup l d (m : gmap string Dtype) c :
  insert_all l d m !! c = if decide (c ∈ l) then Some d else m !! c.
Proof.
  revert m. induction l as [|a l IH]; intros m.
  - rewrite decide_False; [done|]. apply not_elem_of_nil.
  - change (insert_all (a :: l) d m) with (insert_all l d (<[a:=d]> m)).
    rewrite IH. rewrite lookup_insert.
    repeat case_decide; try done; set_solver.
Qed.

Lemma update_cols_columns l d g df :
  columns (update_cols l d g df) = insert_all l d (columns df).
Proof. revert df. induction l as [|a l IH]; intros df; [done|]. apply IH. Qed.

Lemma update_cols_rows l d g df :
  rows (update_cols l d g df) = map (update_row l g) (rows df).
Proof.
  revert df. induction l as [|a l IH]; intros df.
  - simpl. by rewrite map_id.
  - change (update_cols (a :: l) d g df) with (update_cols l d g (assign a d (λ r, g a (r !! a)) df)).
    rewrite IH. simpl. by rewrite map_map.
Qed.

Lemma for_each_modify {A} (l : list A) (F : A → DataFrame → DataFrame) df :
  for_each l (λ c, modify (F c)) df = (foldl (λ df c, F c df) df l, Ok tt).
Proof. revert df. induction l as [|a l IH]; intros df; [done|]. simpl. unfold bind, modify. simpl. apply IH. Qed.

Lemma has_column_assign_present a d f df c :
  has_column df a = true → has_column (assign a d f df) c = has_column df c.
Proof.
  unfold has_column. simpl. intros Ha%bool_decide_eq_true.
  apply bool_decide_ext. rewrite lookup_insert_is_Some.
  split; [intros [<-|[? ?]]; done|]. intros. destruct (decide (a = c)); auto.
Qed.

Lemma for_each_present l d g df :
  for_each l (λ c, (b <- contains c ;;
                    if b : bool then modify (assign c d (λ r, g c (r !! c))) else ret tt)%py) df
  = (update_cols (List.filter (has_column df) l) d g df, Ok tt).
Proof.
  revert df. induction l as [|a l IH]; intros df; [done|].
  simpl. unfold bind at 1. unfold bind at 1. unfold contains at 1. simpl.
  destruct (has_column df a) eqn:Ha.
  - unfold modify at 1. simpl. rewrite IH. f_equal.
    rewrite (List.filter_ext _ (has_column df)); [done|].
    intros c. by apply has_column_assign_present.
  - unfold ret at 1. simpl. apply IH.
Qed.

Section prepare_facts.
Context `{Pandas}.

Lemma elem_of_object_columns df c :
  c ∈ object_columns df ↔ columns df !! c = Some DObject.
Proof.
  unfold object_columns. rewrite list_elem_of_fmap. split.
  - intros [[c' d] [-> Hin]]. apply elem_of_map_to_list in Hin.
    apply map_lookup_filter_Some in Hin as [Hl Hd]. simpl in *. by subst.
  - intros Hl. exists (c, DObject). split; [done|].
    apply elem_of_map_to_list. by apply map_lookup_filter_Some.
Qed.

Lemma NoDup_object_columns df : NoDup (object_columns df).
Proof. apply NoDup_fst_map_to_list. Qed.

Lemma padroniza_textos_eq df :
  padroniza_textos df =
  (update_cols (object_columns df) DObject (λ _, text_cell) df, Ok tt).
Proof.
  unfold padroniza_textos, bind, get. simpl.
  apply (for_each_modify (object_columns df)
           (λ c, assign c DObject (λ r, text_cell (r !! c)))).
Qed.

Lemma padroniza_textos_columns df :
  columns (update_cols (object_columns df) DObject (λ _, text_cell) df) = columns df.
Proof.
  rewrite update_cols_columns. apply map_eq. intros c.
  rewrite insert_all_lookup. case_decide as Hc; [|done].
  by apply elem_of_object_columns in Hc.
Qed.

Lemma datas_eq df :
  datas df = (update_cols (List.filter (has_column df) DATE_COLS) DDatetime
                (λ _, to_datetime) df, Ok tt).
Proof. apply (for_each_present DATE_COLS DDatetime (λ _, to_datetime)). Qed.

Lemma padroniza_sexo_eq df :
  padroniza_sexo df =
  match columns df !! "Sexo"%string with
  | None => (df, Ok tt)
  | Some DObject =>
      (update_cols ["Sexo"%string] DObject (λ _ c, replace_sexo (str_upper c)) df, Ok tt)
  | Some _ => (df, Raise AttributeError)
  end.
Proof.
  unfold padroniza_sexo, bind, contains, series_dtype, has_column. simpl.
  destruct (columns df !! "Sexo"%string) as [[]|] eqn:E; simpl; rewrite ?E; done.
Qed.

Lemma garante_body_eq col df :
  ( b <- contains col ;;
    (if b : bool then ret tt
     else modify (assign col DNumber (λ _, Some (VNum 0%Qc)))) ;;
    d <- series_dtype col ;;
    modify (assign col DNumber (λ r, fillna 0%Qc (to_numeric d (r !! col)))) )%py df
  = modify (assign col DNumber (λ r, currency_cell (columns df !! col) (r !! col))) df.
Proof.
  unfold bind, contains, series_dtype, has_column, modify, ret. simpl.
  destruct (columns df !! col) as [d|] eqn:E; simpl.
  - rewrite E. done.
  - rewrite lookup_insert_eq. unfold assign. simpl. f_equal. f_equal.
    + by rewrite insert_insert_eq.
    + rewrite map_map. apply map_ext. intros r. unfold set_cell.
      rewrite lookup_partial_alter_eq. simpl.
      apply map_eq. intros c. rewrite !lookup_partial_alter.
      by case_decide.
Qed.

Lemma for_each_ext {A} (l : list A) (b1 b2 : A → Py unit) df :
  (∀ x df, b1 x df = b2 x df) → for_each l b1 df = for_each l b2 df.
Proof.
  intros Hb. revert df. induction l as [|a l IH]; intros df; [done|].
  simpl. unfold bind. rewrite Hb. destruct (b2 a df) as [df' [e|[]]]; [done|]. apply IH.
Qed.

Lemma garante_numericos_eq df :
  garante_numericos df =
  (update_cols CURRENCY_COLS DNumber (λ c, currency_cell (columns df !! c)) df, Ok tt).
Proof.
  unfold garante_numericos.
  etrans.
  { apply (for_each_ext _ _
      (λ col, modify (λ df, assign col DNumber
                 (λ r, currency_cell (columns df !! col) (r !! col)) df))).
    intros col df'. apply garante_body_eq. }
  rewrite (for_each_modify CURRENCY_COLS
             (λ col df, assign col DNumber (λ r, currency_cell (columns df !! col) (r !! col)) df)).
  f_equal. unfold CURRENCY_COLS, update_cols. simpl.
  repeat (rewrite lookup_insert_ne by done). done.
Qed.

Lemma has_column_assign_ne a d f df c :
  a ≠ c → has_column (assign a d f df) c = has_column df c.
Proof. intros. unfold has_column. simpl. by rewrite lookup_insert_ne. Qed.

Lemma colunas_derivadas_eq today df :
  (∀ c d, c ∈ DATE_COLS → columns df !! c = Some d → d = DDatetime) →
  colunas_derivadas today df =
  (mkDF (derive_cols (columns df)) (map (derive_row today (columns df)) (rows df)), Ok tt).
Proof.
  intros Hd.
  assert (∀ c, c ∈ DATE_COLS → columns df !! c = None ∨ columns df !! c = Some DDatetime) as Hd'.
  { intros c Hc. destruct (columns df !! c) as [d|] eqn:E; [|by left].
    right. f_equal. by eapply Hd. }
  unfold colunas_derivadas, derive_cols, derive_row, bind, contains, series_dtype.
  unfold flag, has_column, modify, ret, assign.
  destruct (Hd' "Data de Nascimento"%string ltac:(col_solver)) as [E1|E1];
  destruct (Hd' "Data de Contratacao"%string ltac:(col_solver)) as [E2|E2];
  destruct (columns df !! "Data de Demissao"%string) as [d3|] eqn:E3;
  repeat (progress (simpl; rewrite ?E1, ?E2, ?E3, ?lookup_insert_ne by done));
  rewrite ?map_map; done.
Qed.

Lemma flag_cols_datas cols c : flag (cols_datas cols) c = flag cols c.
Proof.
  unfold flag, cols_datas. apply bool_decide_ext. rewrite insert_all_lookup.
  case_decide as Hc; [|done]. unfold present_dates in Hc.
  apply list_elem_of_In, List.filter_In in Hc as [_ Hc].
  apply bool_decide_eq_true in Hc. split; [done|]. by eexists.
Qed.

Lemma cols_datas_other cols c : c ∉ DATE_COLS → cols_datas cols !! c = cols !! c.
Proof.
  intros Hc. unfold cols_datas. rewrite insert_all_lookup.
  case_decide as Hc'; [|done]. exfalso. apply Hc.
  unfold present_dates in Hc'. by apply list_elem_of_In, List.filter_In in Hc' as [?%list_elem_of_In _].
Qed.

Lemma cols_datas_date cols c d :
  c ∈ DATE_COLS → cols_datas cols !! c = Some d → d = DDatetime.
Proof.
  intros Hc. unfold cols_datas. rewrite insert_all_lookup.
  case_decide as Hc'; [congruence|]. intros Hl. exfalso. apply Hc'.
  unfold present_dates. apply list_elem_of_In, List.filter_In. split; [by apply list_elem_of_In|].
  unfold flag. apply bool_decide_eq_true. by eexists.
Qed.

Lemma flag_cols_num cols c : c ∉ CURRENCY_COLS → flag (cols_num cols) c = flag cols c.
Proof.
  intros Hc. unfold flag, cols_num. rewrite insert_all_lookup. by rewrite decide_False.
Qed.

Lemma prepare_df_eq w df :
  prepare_df w df =
  if sexo_ok (columns df) then
    let out := mkDF (derive_cols (cols_num (cols_datas (columns df))))
                    (map (prepare_row w (columns df)) (rows df)) in
    (out, Ok out)
  else
    (mkDF (cols_datas (columns df)) (map (normalize_row (columns df)) (rows df)),
     Raise AttributeError).
Proof.
  unfold prepare_df, bind. rewrite padroniza_textos_eq.
  set (df1 := update_cols _ _ _ df).
  assert (columns df1 = columns df) as Hc1 by apply padroniza_textos_columns.
  assert (rows df1 = map (update_row (object_columns (mkDF (columns df) [])) (λ _, text_cell)) (rows df)) as Hr1.
  { unfold df1. by rewrite update_cols_rows. }
  rewrite datas_eq.
  set (df2 := update_cols _ _ _ df1).
  assert (columns df2 = cols_datas (columns df)) as Hc2.
  { unfold df2. rewrite update_cols_columns, Hc1. unfold cols_datas, present_dates.
    f_equal. apply List.filter_ext. intros c. unfold has_column, flag. by rewrite Hc1. }
  assert (rows df2 = map (normalize_row (columns df)) (rows df)) as Hr2.
  { unfold df2. rewrite update_cols_rows, Hr1, map_map. apply map_ext. intros r.
    unfold normalize_row, present_dates. f_equal. apply List.filter_ext.
    intros c. unfold has_column, flag. by rewrite Hc1. }
  assert (columns df2 !! "Sexo"%string = columns df !! "Sexo"%string) as Hs.
  { rewrite Hc2. apply cols_datas_other. col_solver. }
  rewrite padroniza_sexo_eq, Hs. unfold sexo_ok.
  destruct (columns df !! "Sexo"%string) as [[]|] eqn:Es; cbv beta iota.
  2,3: by (f_equal; destruct df2; simpl in *; subst).
  - set (df3 := update_cols _ _ _ df2).
    assert (columns df3 = cols_datas (columns df)) as Hc3.
    { unfold df3. rewrite update_cols_columns, Hc2. unfold insert_all. simpl.
      apply insert_id. rewrite <- Hc2, Hs. done. }
    assert (rows df3 = map (λ r, sexo_row (columns df) (normalize_row (columns df) r)) (rows df)) as Hr3.
    { unfold df3. rewrite update_cols_rows, Hr2, map_map. apply map_ext. intros r.
      unfold sexo_row. by rewrite Es. }
    clearbody df3. clear df1 df2 Hc1 Hr1 Hc2 Hr2 Hs.
    rewrite garante_numericos_eq.
    set (df4 := update_cols _ _ _ df3).
    assert (columns df4 = cols_num (cols_datas (columns df))) as Hc4.
    { unfold df4. by rewrite update_cols_columns, Hc3. }
    assert (rows df4 = map (λ r, update_row CURRENCY_COLS (λ c, currency_cell (columns df !! c))
                                   (sexo_row (columns df) (normalize_row (columns df) r))) (rows df)) as Hr4.
    { unfold df4. rewrite update_cols_rows, Hr3, map_map. apply map_ext. intros r.
      rewrite Hc3. unfold update_row, CURRENCY_COLS. simpl.
      rewrite !cols_datas_other by col_solver. done. }
    clearbody df4. clear df3 Hc3 Hr3.
    rewrite colunas_derivadas_eq.
    2:{ intros c d Hc. rewrite Hc4. unfold cols_num. rewrite insert_all_lookup.
        case_decide as Hin; [by apply date_cols_not_currency in Hc|]. by apply cols_datas_date. }
    unfold get. rewrite Hc4, Hr4, map_map.
    assert (∀ r, derive_row (Timestamp_of_date (date_today w)) (cols_num (cols_datas (columns df))) r
               = derive_row (Timestamp_of_date (date_today w)) (columns df) r) as Hflag.
    { intros r. unfold derive_row. rewrite !flag_cols_num by col_solver.
      by rewrite !flag_cols_datas. }
    cbv zeta. rewrite (map_ext _ _ (λ r, Hflag _)). done.
  - rewrite garante_numericos_eq.
    set (df4 := update_cols _ _ _ df2).
    assert (columns df4 = cols_num (cols_datas (columns df))) as Hc4.
    { unfold df4. by rewrite update_cols_columns, Hc2. }
    assert (rows df4 = map (λ r, update_row CURRENCY_COLS (λ c, currency_cell (columns df !! c))
                                   (sexo_row (columns df) (normalize_row (columns df) r))) (rows df)) as Hr4.
    { unfold df4. rewrite update_cols_rows, Hr2, map_map. apply map_ext. intros r.
      rewrite Hc2. unfold update_row, CURRENCY_COLS, sexo_row. simpl. rewrite Es.
      rewrite !cols_datas_other by col_solver. done. }
    clearbody df4. clear df1 df2 Hc1 Hr1 Hc2 Hr2 Hs.
    rewrite colunas_derivadas_eq.
    2:{ intros c d Hc. rewrite Hc4. unfold cols_num. rewrite insert_all_lookup.
        case_decide as Hin; [by apply date_cols_not_currency in Hc|]. by apply cols_datas_date. }
    unfold get. rewrite Hc4, Hr4, map_map.
    assert (∀ r, derive_row (Timestamp_of_date (date_today w)) (cols_num (cols_datas (columns df))) r
               = derive_row (Timestamp_of_date (date_today w)) (columns df) r) as Hflag.
    { intros r. unfold derive_row. rewrite !flag_cols_num by col_solver.
      by rewrite !flag_cols_datas. }
    cbv zeta. rewrite (map_ext _ _ (λ r, Hflag _)). done.
Qed.

End prepare_facts.

(** ** What [prepare_df] leaves in each cell *)

Lemma NoDup_CURRENCY_COLS : NoDup CURRENCY_COLS.
Proof. unfold CURRENCY_COLS. repeat (apply list.NoDup_cons; split; [set_solver|]). apply NoDup_nil_2. Qed.

Lemma NoDup_DATE_COLS : NoDup DATE_COLS.
Proof. unfold DATE_COLS. repeat (apply list.NoDup_cons; split; [set_solver|]). apply NoDup_nil_2. Qed.

Lemma NoDup_present_dates cols : NoDup (present_dates cols).
Proof.
  unfold present_dates. apply NoDup_ListNoDup, List.NoDup_filter, NoDup_ListNoDup, NoDup_DATE_COLS.
Qed.

Lemma elem_of_present_dates cols c :
  c ∈ present_dates cols ↔ c ∈ DATE_COLS ∧ is_Some (cols !! c).
Proof.
  unfold present_dates. rewrite list_elem_of_In, List.filter_In, <- list_elem_of_In.
  unfold flag. by rewrite bool_decide_eq_true.
Qed.

Lemma derive_row_other today cols (r : Row) c :
  c ∉ DERIVED_COLS → derive_row today cols r !! c = r !! c.
Proof.
  intros Hc. unfold derive_row. cbv zeta.
  assert (c ≠ "Idade"%string ∧ c ≠ "Tempo de Casa (meses)"%string ∧
          c ≠ "Status"%string ∧ c ≠ "Custo Total Mensal"%string) as (?&?&?&?).
  { unfold DERIVED_COLS in Hc. set_solver. }
  rewrite !set_cell_lookup.
  repeat (rewrite decide_False by done).
  destruct (flag cols "Data de Contratacao"), (flag cols "Data de Nascimento");
    rewrite ?set_cell_lookup; repeat (rewrite decide_False by done); done.
Qed.



Lemma derive_row_status today cols (r : Row) :
  derive_row today cols r !! "Status"%string =
  Some (VStr (if flag cols "Data de Demissao" &&
                 notna (derive_row today cols r !! "Data de Demissao"%string)
              then "Desligado" else "Ativo")).
Proof.
  rewrite (derive_row_other _ _ _ "Data de Demissao") by col_solver.
  unfold derive_row. cbv zeta. rewrite set_cell_lookup, decide_False by done.
  rewrite set_cell_lookup, decide_True by done.
  destruct (flag cols "Data de Contratacao"), (flag cols "Data de Nascimento");
    rewrite ?set_cell_lookup; repeat (rewrite decide_False by done); done.
Qed.

Lemma derive_row_meses today cols (r : Row) :
  flag cols "Data de Contratacao" = true →
  derive_row today cols r !! "Tempo de Casa (meses)"%string =
  meses today (derive_row today cols r !! "Data de Contratacao"%string).
Proof.
  intros Hf.
  rewrite (derive_row_other _ _ _ "Data de Contratacao") by col_solver.
  unfold derive_row. cbv zeta. rewrite Hf.
  rewrite !set_cell_lookup. repeat (rewrite decide_False by done).
  rewrite decide_True by done.
  destruct (flag cols "Data de Nascimento");
    rewrite ?set_cell_lookup; repeat (rewrite decide_False by done); done.
Qed.

Lemma derive_row_idade today cols (r : Row) :
  flag cols "Data de Nascimento" = true →
  derive_row today cols r !! "Idade"%string =
  idade today (derive_row today cols r !! "Data de Nascimento"%string).
Proof.
  intros Hf.
  rewrite (derive_row_other _ _ _ "Data de Nascimento") by col_solver.
  unfold derive_row. cbv zeta. rewrite Hf.
  rewrite !set_cell_lookup. repeat (rewrite decide_False by done).
  destruct (flag cols "Data de Contratacao");
    rewrite ?set_cell_lookup; repeat (rewrite decide_False by done);
    by rewrite decide_True.
Qed.

Lemma sexo_row_other cols (r : Row) c :
  c ≠ "Sexo"%string → sexo_row cols r !! c = r !! c.
Proof.
  intros Hc. unfold sexo_row. destruct (cols !! "Sexo"%string); [|done].
  by rewrite set_cell_lookup, decide_False.
Qed.

Section cell_facts.
Context `{Pandas}.

Lemma normalize_row_lookup cols (r : Row) c :
  normalize_row cols r !! c =
  if decide (c ∈ DATE_COLS ∧ is_Some (cols !! c))
  then to_datetime (text_fix cols c (r !! c))
  else text_fix cols c (r !! c).
Proof.
  unfold normalize_row.
  rewrite update_row_lookup by apply NoDup_present_dates.
  rewrite update_row_lookup by apply NoDup_object_columns.
  assert ((if decide (c ∈ object_columns (mkDF cols [])) then text_cell (r !! c) else r !! c)
          = text_fix cols c (r !! c)) as ->.
  { unfold text_fix. repeat case_decide; try done.
    - exfalso. by apply elem_of_object_columns in H0.
    - exfalso. apply H0. by apply elem_of_object_columns. }
  repeat case_decide; try done.
  - exfalso. by apply elem_of_present_dates in H0.
  - exfalso. apply H0. by apply elem_of_present_dates.
Qed.

Lemma prepare_row_currency w cols (r : Row) c :
  c ∈ CURRENCY_COLS →
  prepare_row w cols r !! c = currency_cell (cols !! c) (text_fix cols c (r !! c)).
Proof.
  intros Hc. unfold prepare_row.
  rewrite derive_row_other by col_solver.
  rewrite update_row_lookup by apply NoDup_CURRENCY_COLS.
  rewrite decide_True by done.
  rewrite sexo_row_other by col_solver.
  rewrite normalize_row_lookup.
  rewrite decide_False; [done|].
  intros [Hd _]. unfold CURRENCY_COLS, DATE_COLS in *. set_solver.
Qed.

Lemma prepare_row_date w cols (r : Row) c :
  c ∈ DATE_COLS →
  prepare_row w cols r !! c =
  if decide (is_Some (cols !! c)) then to_datetime (text_fix cols c (r !! c))
  else text_fix cols c (r !! c).
Proof.
  intros Hc. unfold prepare_row.
  rewrite derive_row_other by col_solver.
  rewrite update_row_lookup by apply NoDup_CURRENCY_COLS.
  rewrite decide_False by col_solver.
  rewrite sexo_row_other by col_solver.
  rewrite normalize_row_lookup.
  repeat case_decide; naive_solver.
Qed.

End cell_facts.

Section prepare_claims.
Context `{Pandas}.

Lemma load_eq w raw :
  load w raw =
  if sexo_ok (columns raw)
  then Ok (mkDF (derive_cols (cols_num (cols_datas (columns raw))))
                (map (prepare_row w (columns raw)) (rows raw)))
  else Raise AttributeError.
Proof. unfold load. rewrite prepare_df_eq. by destruct (sexo_ok (columns raw)). Qed.

Lemma load_Ok_inv w raw out :
  load w raw = Ok out →
  sexo_ok (columns raw) = true ∧
  columns out = derive_cols (cols_num (cols_datas (columns raw))) ∧
  rows out = map (prepare_row w (columns raw)) (rows raw).
Proof.
  rewrite load_eq. destruct (sexo_ok (columns raw)); [|done].
  intros [= <-]. done.
Qed.

Lemma to_numeric_cases d x :
  to_numeric d x = None ∨ ∃ q, to_numeric d x = Some (VNum q).
Proof.
  unfold to_numeric. destruct d, x as [[q|s|t]|]; simpl; eauto;
    destruct (parse_number s); simpl; eauto.
Qed.

Lemma currency_cell_number d x : ∃ q, currency_cell d x = Some (VNum q).
Proof.
  destruct d as [d|]; simpl; [|by eexists].
  destruct (to_numeric_cases d x) as [->|[q ->]]; simpl; by eexists.
Qed.

Lemma Forall2_map_intro {A B} (R : A → B → Prop) (g : A → B) (l : list A) :
  (∀ x, R x (g x)) → Forall2 R l (map g l).
Proof. intros HR. induction l; simpl; constructor; auto. Qed.


Lemma prepare_row_status w cols (r : Row) :
  prepare_row w cols r !! "Status"%string = Some (VStr "Ativo") ∨
  prepare_row w cols r !! "Status"%string = Some (VStr "Desligado").
Proof.
  unfold prepare_row. rewrite derive_row_status.
  destruct (_ && _); [by right|by left].
Qed.

Lemma derive_cols_status cols : derive_cols cols !! "Status"%string = Some DObject.
Proof.
  unfold derive_cols. cbv zeta. rewrite lookup_insert_ne by done.
  by rewrite lookup_insert_eq.
Qed.

Lemma status_count (l : list Row) :
  (∀ r, r ∈ l → r !! "Status"%string = Some (VStr "Ativo") ∨
                r !! "Status"%string = Some (VStr "Desligado")) →
  (List.length (List.filter (status_is "Ativo") l) +
   List.length (List.filter (status_is "Desligado") l) = List.length l)%nat.
Proof.
  induction l as [|r l IH]; intros Hl; [done|].
  assert (∀ r', r' ∈ l → r' !! "Status"%string = Some (VStr "Ativo") ∨
                r' !! "Status"%string = Some (VStr "Desligado")) as Hl'.
  { intros r' Hr'. apply Hl. by right. }
  specialize (IH Hl'). simpl.
  destruct (Hl r) as [E|E]; [by left|..].
  - replace (status_is "Ativo" r) with true
      by (symmetry; apply bool_decide_eq_true_2; done).
    replace (status_is "Desligado" r) with false
      by (symmetry; apply bool_decide_eq_false_2; rewrite E; done).
    simpl. by rewrite IH.
  - replace (status_is "Ativo" r) with false
      by (symmetry; apply bool_decide_eq_false_2; rewrite E; done).
    replace (status_is "Desligado" r) with true
      by (symmetry; apply bool_decide_eq_true_2; done).
    simpl. rewrite <- plus_n_Sm. by rewrite IH.
Qed.

Lemma elem_of_select {A} (mask : list bool) (l : list A) x :
  x ∈ select mask l → x ∈ l.
Proof.
  revert mask. induction l as [|y l IH]; intros [|b mask]; simpl; try (by intros ?%elem_of_nil).
  destruct b.
  - intros [->|Hx]%elem_of_cons; [by left|]. right. by eapply IH.
  - intros Hx. right. by eapply IH.
Qed.

(** C10.  Every row of a table returned by [prepare_df] has status "Ativo"
    or "Desligado"; hence on that table, and on every selection of its rows
    by a boolean mask, active headcount plus terminated count is the
    number of rows. *)
Theorem status_two_valued_and_counts_partition w raw out :
  load w raw = Ok out →
  (∀ r, r ∈ rows out →
     r !! "Status"%string = Some (VStr "Ativo") ∨
     r !! "Status"%string = Some (VStr "Desligado")) ∧
  k_headcount_ativo out + k_desligados out = Z.of_nat (List.length (rows out)) ∧
  ∀ mask,
    k_headcount_ativo (getitem_mask out mask) +
    k_desligados (getitem_mask out mask) =
    Z.of_nat (List.length (rows (getitem_mask out mask))).
Proof.
  intros (_ & Hcols & Hrows)%load_Ok_inv.
  assert (∀ r, r ∈ rows out →
     r !! "Status"%string = Some (VStr "Ativo") ∨
     r !! "Status"%string = Some (VStr "Desligado")) as Hst.
  { intros r Hr. rewrite Hrows in Hr. apply list_elem_of_fmap in Hr as (r0 & -> & _).
    apply prepare_row_status. }
  assert (∀ rs, (∀ r, r ∈ rs → r ∈ rows out) →
            k_headcount_ativo (mkDF (columns out) rs) + k_desligados (mkDF (columns out) rs)
            = Z.of_nat (List.length rs)) as Hcount.
  { intros rs Hsub. unfold k_headcount_ativo, k_desligados, has_column. simpl.
    rewrite Hcols, derive_cols_status. rewrite bool_decide_eq_true_2 by by eexists.
    rewrite <- Nat2Z.inj_add. f_equal. apply status_count. intros r Hr. apply Hst, Hsub, Hr. }
  split; [done|]. split.
  - destruct out as [cs rs]. apply Hcount. done.
  - intros mask. apply Hcount. intros r. apply elem_of_select.
Qed.

(** C1 (amended).  After [prepare_df] each of the five currency columns has
    a numeric dtype and holds a number in every row, never the null cell:
    0 when the column was absent from the input, 0 when the cell does not
    convert, and otherwise the converted value as it is -- a negative
    amount stays negative. *)
Theorem currency_fields_numeric w raw out :
  load w raw = Ok out →
  ∀ c, c ∈ CURRENCY_COLS →
    columns out !! c = Some DNumber ∧
    Forall2 (λ r r' : Row,
      ∃ q : Qc,
        r' !! c = Some (VNum q) ∧
        (columns raw !! c = None → q = 0%Qc) ∧
        (∀ d, columns raw !! c = Some d →
              to_numeric d (text_fix (columns raw) c (r !! c)) = None → q = 0%Qc) ∧
        (∀ d q', columns raw !! c = Some d →
              to_numeric d (text_fix (columns raw) c (r !! c)) = Some (VNum q') → q = q'))
      (rows raw) (rows out).
Proof.
  intros (_ & Hcols & Hrows)%load_Ok_inv c Hc. split.
  - rewrite Hcols. unfold derive_cols. cbv zeta.
    assert (c ∉ DERIVED_COLS) as Hnd by col_solver.
    unfold DERIVED_COLS in Hnd.
    rewrite !lookup_insert_ne by set_solver.
    assert (cols_num (cols_datas (columns raw)) !! c = Some DNumber) as Hn.
    { unfold cols_num. rewrite insert_all_lookup. by rewrite decide_True. }
    destruct (flag _ "Data de Contratacao"), (flag _ "Data de Nascimento");
      rewrite ?lookup_insert_ne by set_solver; done.
  - rewrite Hrows. apply Forall2_map_intro. intros r.
    rewrite prepare_row_currency by done.
    destruct (columns raw !! c) as [d|] eqn:Ed; simpl.
    + destruct (to_numeric_cases d (text_fix (columns raw) c (r !! c))) as [E|[q E]];
        rewrite E; simpl.
      * exists 0%Qc. repeat split; try done. intros d' q' [= <-]. by rewrite E.
      * exists q. repeat split; try done.
        -- intros d' [= <-]. by rewrite E.
        -- intros d' q' [= <-]. rewrite E. by intros [= <-].
    + exists 0%Qc. repeat split; done.
Qed.

(** [prepare_df] raises exactly when a "Sexo" column is present and is not an
    object column; the exception is the AttributeError of the [.str] accessor. *)
Lemma load_raises_iff w raw e :
  load w raw = Raise e ↔
  e = AttributeError ∧ ∃ d, columns raw !! "Sexo"%string = Some d ∧ d ≠ DObject.
Proof.
  rewrite load_eq. unfold sexo_ok.
  destruct (columns raw !! "Sexo"%string) as [[]|]; split; try done.
  - intros [_ (d & [= <-] & Hd)]. done.
  - intros [= <-]. split; [done|]. by eexists.
  - by intros [-> _].
  - intros [= <-]. split; [done|]. by eexists.
  - by intros [-> _].
  - intros [_ (d & Hd & _)]. done.
Qed.

(** C5 (amended).  With the system date 2021-03-01 a row whose hire date is
    2020-01-15 gets [(2021 - 2020) * 12 + (3 - 1) = 14] months of tenure. *)
Theorem tenure_months_2020_01_15_at_2021_03_01 w raw out :
  load w raw = Ok out →
  date_today w = mkDate 2021 3 1 →
  is_Some (columns raw !! "Data de Contratacao"%string) →
  ∀ r ns, r ∈ rows out →
    r !! "Data de Contratacao"%string = Some (VDate (mkTs 2020 1 15 ns)) →
    r !! "Tempo de Casa (meses)"%string = Some (VNum (qz 14)).
Proof.
  intros (_ & _ & Hrows)%load_Ok_inv Hw Hcol r ns Hr Hhire.
  rewrite Hrows in Hr. apply list_elem_of_fmap in Hr as (r0 & -> & _).
  unfold prepare_row in *. rewrite derive_row_meses.
  - rewrite Hhire, Hw. done.
  - unfold flag. by apply bool_decide_eq_true.
Qed.



End prepare_claims.

(** ** The filter statements *)

Lemma select_map {A} (p : A → bool) (l : list A) :
  select (map p l) l = List.filter p l.
Proof. induction l as [|x l IH]; [done|]. simpl. destruct (p x); by rewrite IH. Qed.

Lemma getitem_mask_column df col (g : Cell → bool) :
  getitem_mask df (map g (column df col)) = filter_rows (λ r, g (r !! col)) df.
Proof.
  unfold getitem_mask, filter_rows, column. rewrite map_map. by rewrite select_map.
Qed.

Lemma filter_true {A} (l : list A) : List.filter (λ _, true) l = l.
Proof. induction l; simpl; congruence. Qed.

Lemma filter_comm {A} (p q : A → bool) (l : list A) :
  List.filter p (List.filter q l) = List.filter q (List.filter p l).
Proof.
  induction l as [|x l IH]; [done|]. simpl.
  destruct (p x) eqn:Hp, (q x) eqn:Hq; simpl; rewrite ?Hp, ?Hq, IH; done.
Qed.


Lemma Forall2_map_mask {A B} (g : A → B) (l : list A) :
  Forall2 (λ x b, g x = b) l (map g l).
Proof. induction l; constructor; auto. Qed.


Lemma select_keeps {A} (P : A → Prop) (l : list A) (mask : list bool) :
  Forall2 (λ x b, P x → b = true) l mask → ∀ x, x ∈ l → P x → x ∈ select mask l.
Proof.
  intros HF. induction HF as [|x b l mask Hx HF IH]; simpl.
  - intros x. by intros ?%elem_of_nil.
  - intros y [->|Hy]%elem_of_cons HP.
    + rewrite Hx by done. by left.
    + destruct b; [right|]; by apply IH.
Qed.

(** Statements that are [stable] for one and the same exception can be run
    in any order. *)
Lemma run_steps_permutation e0 cols steps steps' :
  Permutation steps steps' →
  Forall (stable e0 cols) steps →
  ∀ rs, run_steps steps (mkDF cols rs) = run_steps steps' (mkDF cols rs).
Proof.
  induction 1 as [|s l l' Hp IH|s1 s2 l|l1 l2 l3 H12 IH12 H23 IH23]; intros Hst rs.
  - done.
  - inversion Hst as [|? ? Hs Hl]; subst. simpl.
    destruct Hs as [Hs|[p Hs]]; rewrite Hs; simpl; [done|]. by apply IH.
  - inversion Hst as [|? ? H2 Hst']; subst. inversion Hst' as [|? ? H1 Hl]; subst. simpl.
    destruct H1 as [H1|[p1 H1]], H2 as [H2|[p2 H2]];
      rewrite ?H1, ?H2; simpl; rewrite ?H1, ?H2; simpl; try done.
    by rewrite filter_comm.
  - rewrite IH12 by done. apply IH23. by rewrite <- H12.
Qed.

Section filter_claims.
Context `{Pandas}.

Lemma apply_in_filter df col values :
  apply_in df col values =
  if bool_decide (values ≠ []) && has_column df col
  then filter_rows (λ r, isin values (r !! col)) df
  else df.
Proof. unfold apply_in. by rewrite getitem_mask_column. Qed.

Lemma stable_apply_in e0 cols col values :
  stable e0 cols (λ df, Ok (apply_in df col values)).
Proof.
  right. destruct (bool_decide (values ≠ []) && flag cols col) eqn:E.
  - exists (λ r, isin values (r !! col)). intros rs. rewrite apply_in_filter.
    unfold has_column. simpl. fold (flag cols col). by rewrite E.
  - exists (λ _, true). intros rs. rewrite apply_in_filter.
    unfold has_column. simpl. fold (flag cols col). by rewrite E, filter_true.
Qed.

Lemma stable_filter_faixa e0 cols col faixa :
  numeric_or_absent cols col = true → stable e0 cols (filter_faixa col faixa).
Proof.
  unfold numeric_or_absent. intros Ht. right. unfold filter_faixa. simpl.
  destruct faixa as [[lo hi]|], (cols !! col) as [[]|]; try done.
  2-4: exists (λ _, true); intros rs; by rewrite filter_true.
  eexists. intros rs. simpl.
  by rewrite (getitem_mask_column (mkDF cols rs) col
    (λ c, match c with Some (VNum q) => in_range lo hi q | _ => false end)).
Qed.

Lemma stable_filter_periodo e0 cols col da db :
  datetime_or_absent cols col = true → stable e0 cols (filter_periodo col da db).
Proof.
  unfold datetime_or_absent. intros Ht. right. unfold filter_periodo. simpl.
  destruct da as [a|], db as [b|], (cols !! col) as [[]|]; try done.
  all: try (exists (λ _, true); intros rs; by rewrite filter_true).
  eexists. intros rs. simpl.
  by rewrite (getitem_mask_column (mkDF cols rs) col
    (λ c, match c with
          | None => true
          | Some (VDate t) => in_period (Timestamp_of_date a) (Timestamp_of_date b) t
          | Some _ => false
          end)).
Qed.

Lemma stable_filter_nome busca cols :
  stable (nome_exception busca cols) cols (filter_nome busca).
Proof.
  unfold stable, nome_exception, filter_nome, str_contains. simpl.
  destruct (cols !! "Nome Completo"%string) as [d|].
  2: { right. exists (λ _, true). intros rs. by rewrite filter_true. }
  destruct (bool_decide (busca ≠ ""%string)).
  2: { right. exists (λ _, true). intros rs. by rewrite filter_true. }
  destruct (decide (d = DObject)) as [->|Hd]; [|by left].
  destruct (re_compile busca) as [e|m]; simpl; [by left|].
  right. eexists. intros rs.
  by rewrite (getitem_mask_column (mkDF cols rs) "Nome Completo"
    (λ c, match c with Some (VStr s) => m s | _ => false end)).
Qed.

Lemma apply_filters_steps f df : apply_filters f df = run_steps (filter_steps f) df.
Proof.
  unfold apply_filters, filter_steps. simpl.
  repeat (match goal with
          | |- rbind ?m _ = rbind ?m _ => destruct m as [?|?]; simpl; [done|]
          end).
  by destruct (filter_periodo _ _ _ _).
Qed.

Lemma filter_steps_stable f cols :
  filter_targets_typed cols = true →
  Forall (stable (nome_exception (nome_busca f) cols) cols) (filter_steps f).
Proof.
  unfold filter_targets_typed. intros (((H1 & H2)%andb_true_iff & H3)%andb_true_iff & H4)%andb_true_iff.
  unfold filter_steps.
  repeat (apply List.Forall_cons; [first
    [ apply stable_apply_in | apply stable_filter_nome
    | by apply stable_filter_faixa | by apply stable_filter_periodo ]|]).
  apply List.Forall_nil.
Qed.

(** On a table whose age and salary columns hold numbers and whose period
    columns hold dates, the filter statements give the same outcome in
    every order. *)
Lemma filters_commute_typed f df steps' :
  filter_targets_typed (columns df) = true →
  Permutation (filter_steps f) steps' →
  run_steps steps' df = apply_filters f df.
Proof.
  intros Ht Hp. rewrite apply_filters_steps. destruct df as [cols rs]. symmetry.
  eapply run_steps_permutation; [done|]. by apply filter_steps_stable.
Qed.

Lemma derive_cols_other cols c : c ∉ DERIVED_COLS → derive_cols cols !! c = cols !! c.
Proof.
  intros Hc. unfold DERIVED_COLS in Hc. unfold derive_cols. cbv zeta.
  rewrite !lookup_insert_ne by set_solver.
  destruct (flag cols "Data de Contratacao"), (flag cols "Data de Nascimento");
    rewrite ?lookup_insert_ne by set_solver; done.
Qed.

Lemma derive_cols_idade cols :
  derive_cols cols !! "Idade"%string =
  if flag cols "Data de Nascimento" then Some DNumber else cols !! "Idade"%string.
Proof.
  unfold derive_cols. cbv zeta. rewrite !lookup_insert_ne by done.
  destruct (flag cols "Data de Contratacao"), (flag cols "Data de Nascimento");
    rewrite ?lookup_insert_ne by done; rewrite ?lookup_insert_eq; done.
Qed.

Lemma cols_num_other cols c : c ∉ CURRENCY_COLS → cols_num cols !! c = cols !! c.
Proof. intros Hc. unfold cols_num. by rewrite insert_all_lookup, decide_False. Qed.

Lemma cols_num_currency cols c : c ∈ CURRENCY_COLS → cols_num cols !! c = Some DNumber.
Proof. intros Hc. unfold cols_num. by rewrite insert_all_lookup, decide_True. Qed.

(** The columns of a table returned by [prepare_df] have the dtypes the
    filters expect, provided the age column is the derived one or was
    numeric (or absent) in the input. *)
Lemma load_targets_typed w raw out :
  load w raw = Ok out →
  is_Some (columns raw !! "Data de Nascimento"%string) ∨
    numeric_or_absent (columns raw) "Idade" = true →
  filter_targets_typed (columns out) = true.
Proof.
  intros (_ & Hcols & _)%load_Ok_inv Hage. unfold filter_targets_typed.
  assert (∀ c, c ∈ DATE_COLS → datetime_or_absent (columns out) c = true) as Hdate.
  { intros c Hc. unfold datetime_or_absent. rewrite Hcols.
    rewrite derive_cols_other by col_solver.
    rewrite cols_num_other by col_solver.
    destruct (cols_datas (columns raw) !! c) as [d|] eqn:E; [|done].
    by rewrite (cols_datas_date _ _ _ Hc E). }
  rewrite !Hdate by col_solver.
  assert (numeric_or_absent (columns out) "Salario Base" = true) as ->.
  { unfold numeric_or_absent. rewrite Hcols.
    rewrite derive_cols_other by col_solver.
    by rewrite cols_num_currency by col_solver. }
  assert (numeric_or_absent (columns out) "Idade" = true) as ->; [|done].
  unfold numeric_or_absent. rewrite Hcols, derive_cols_idade.
  rewrite flag_cols_num by col_solver.
  rewrite flag_cols_datas.
  destruct Hage as [Hb|Hn].
  - unfold flag. by rewrite bool_decide_eq_true_2.
  - destruct (flag (columns raw) "Data de Nascimento"); [done|].
    rewrite cols_num_other by col_solver.
    rewrite cols_datas_other by col_solver. done.
Qed.

(** C3 (amended).  On every table returned by [prepare_df] whose age column
    holds numbers -- it does whenever the input has a birth-date column, or
    has no text "Idade" column of its own -- the filter statements, run in
    any order, give the outcome of the script: the same rows, or the same
    exception of the name search. *)
Theorem filters_order_independent w raw out f steps' :
  load w raw = Ok out →
  is_Some (columns raw !! "Data de Nascimento"%string) ∨
    numeric_or_absent (columns raw) "Idade" = true →
  Permutation (filter_steps f) steps' →
  run_steps steps' out = apply_filters f out.
Proof.
  intros Hl Hage Hp. apply filters_commute_typed; [|done].
  by eapply load_targets_typed.
Qed.



(** *** The name search *)

Lemma lower_append (a b : string) :
  lower (a +:+ b) = (lower a +:+ lower b)%string.
Proof. induction a as [|c a IH]; simpl; [done|]. unfold lower in *. simpl. by rewrite IH. Qed.





End filter_claims.

(** ** The KPIs *)

Section kpi_claims.
Context `{Pandas}.




End kpi_claims.

(** ** The example tables after [prepare_df] *)

Lemma load_loaded w raw :
  sexo_ok (columns raw) = true →
  load (H := plain_pandas) w raw = Ok (loaded w raw).
Proof. intros Hs. unfold loaded. by rewrite load_eq, Hs. Qed.

Lemma loaded_rows w raw :
  sexo_ok (columns raw) = true →
  rows (loaded w raw) = map (prepare_row (H := plain_pandas) w (columns raw)) (rows raw).
Proof. intros Hs. unfold loaded. by rewrite load_eq, Hs. Qed.

Lemma loaded_single_row w raw r0 :
  sexo_ok (columns raw) = true → rows raw = [r0] →
  rows (loaded w raw) = [first_row (loaded w raw)].
Proof. intros Hs Hr. unfold first_row. by rewrite loaded_rows, Hr. Qed.

Lemma first_row_loaded_in w raw r0 rs :
  sexo_ok (columns raw) = true → rows raw = r0 :: rs →
  first_row (loaded w raw) ∈ rows (loaded w raw).
Proof. intros Hs Hr. unfold first_row. rewrite loaded_rows, Hr by done. by left. Qed.

(** ** The claims on concrete tables *)

(** C1, as stated, fails: a salary of -500 is still -500 after [prepare_df];
    nothing clamps a currency cell at zero. *)
Lemma negative_salary_stays_negative :
  load (H := plain_pandas) clock_2021_03_01 negative_salary_table
    = Ok (loaded clock_2021_03_01 negative_salary_table) ∧
  ∃ r : Row,
    rows (loaded clock_2021_03_01 negative_salary_table) = [r] ∧
    r !! "Salario Base"%string = Some (VNum (qz (-500))) ∧
    (qz (-500) < 0)%Qc.
Proof.
  split; [apply load_loaded; vm_compute; reflexivity|].
  exists (first_row (loaded clock_2021_03_01 negative_salary_table)).
  split; [eapply loaded_single_row; [vm_compute|]; reflexivity|].
  split; [vm_compute; reflexivity|]. by vm_compute.
Qed.

(** C5, as stated, fails: hired on 2020-01-15 and seen on 2021-03-01, the
    employee has 14 months of tenure, not 13. *)
Lemma tenure_is_14_not_13 :
  date_today clock_2021_03_01 = mkDate 2021 3 1 ∧
  ∃ r : Row,
    rows (loaded clock_2021_03_01 hire_table) = [r] ∧
    r !! "Data de Contratacao"%string = Some (VDate (mkTs 2020 1 15 0)) ∧
    r !! "Tempo de Casa (meses)"%string = Some (VNum (qz 14)) ∧
    r !! "Tempo de Casa (meses)"%string ≠ Some (VNum (qz 13)).
Proof.
  split; [done|].
  exists (first_row (loaded clock_2021_03_01 hire_table)).
  split; [eapply loaded_single_row; [vm_compute|]; reflexivity|].
  split; [vm_compute; reflexivity|]. split; [vm_compute; reflexivity|].
  vm_compute. intros [=].
Qed.

(** C7: a sheet whose "Sexo" column holds numbers makes [prepare_df] raise
    AttributeError, after the text and date columns were already rewritten. *)
Theorem prepare_df_raises_on_sexo_codes :
  load (H := plain_pandas) clock_2021_03_01 sexo_codes_table = Raise AttributeError.
Proof. vm_compute. reflexivity. Qed.


(** C3, as stated, fails: with a text "Idade" column kept from the input,
    the name search first leaves no row and the script returns the empty
    table, while the age comparison run first raises TypeError. *)
Lemma age_text_filters_order_matters :
  load (H := plain_pandas) clock_2021_03_01 age_text_table
    = Ok (loaded clock_2021_03_01 age_text_table) ∧
  ∃ steps',
    Permutation (filter_steps (H := plain_pandas) age_text_filters) steps' ∧
    (∃ out, apply_filters (H := plain_pandas) age_text_filters
              (loaded clock_2021_03_01 age_text_table) = Ok out ∧ rows out = []) ∧
    run_steps steps' (loaded clock_2021_03_01 age_text_table) = Raise TypeError.
Proof.
  split; [apply load_loaded; vm_compute; reflexivity|].
  exists [ (λ df_f, Ok (apply_in df_f "Área" (area_sel age_text_filters)));
           (λ df_f, Ok (apply_in df_f "Nível" (nivel_sel age_text_filters)));
           (λ df_f, Ok (apply_in df_f "Cargo" (cargo_sel age_text_filters)));
           (λ df_f, Ok (apply_in df_f "Sexo" (sexo_sel age_text_filters)));
           (λ df_f, Ok (apply_in df_f "Status" (status_sel age_text_filters)));
           filter_faixa "Idade" (faixa_idade age_text_filters);
           filter_nome (H := plain_pandas) (nome_busca age_text_filters);
           filter_faixa "Salario Base" (faixa_sal age_text_filters);
           filter_periodo "Data de Contratacao" (periodo_d1 age_text_filters)
             (periodo_d2 age_text_filters);
           filter_periodo "Data de Demissao" (periodo_d3 age_text_filters)
             (periodo_d4 age_text_filters) ].
  split; [|split].
  - unfold filter_steps. do 5 apply perm_skip. apply perm_swap.
  - exists (mkDF (columns (loaded clock_2021_03_01 age_text_table)) []).
    split; [vm_compute; reflexivity|done].
  - vm_compute. reflexivity.
Qed.




(** ** The theorems at work on the example tables *)


Lemma status_two_valued_and_counts_partition_witness :
  k_headcount_ativo (loaded clock_2021_03_01 hire_table) +
  k_desligados (loaded clock_2021_03_01 hire_table) =
  Z.of_nat (List.length (rows (loaded clock_2021_03_01 hire_table))).
Proof.
  assert (load (H := plain_pandas) clock_2021_03_01 hire_table
          = Ok (loaded clock_2021_03_01 hire_table)) as Hl.
  { apply load_loaded. vm_compute. reflexivity. }
  exact (proj1 (proj2 (status_two_valued_and_counts_partition (H := plain_pandas)
                         clock_2021_03_01 hire_table _ Hl))).
Defined.

Lemma currency_fields_numeric_witness :
  columns (loaded clock_2021_03_01 negative_salary_table) !! "Salario Base"%string
  = Some DNumber.
Proof.
  assert (load (H := plain_pandas) clock_2021_03_01 negative_salary_table
          = Ok (loaded clock_2021_03_01 negative_salary_table)) as Hl.
  { apply load_loaded. vm_compute. reflexivity. }
  assert ("Salario Base"%string ∈ CURRENCY_COLS) as Hc by col_solver.
  exact (proj1 (currency_fields_numeric (H := plain_pandas) clock_2021_03_01
                  negative_salary_table _ Hl _ Hc)).
Defined.

Lemma tenure_months_2020_01_15_at_2021_03_01_witness :
  first_row (loaded clock_2021_03_01 hire_table) !! "Tempo de Casa (meses)"%string
  = Some (VNum (qz 14)).
Proof.
  apply (tenure_months_2020_01_15_at_2021_03_01 (H := plain_pandas) clock_2021_03_01
           hire_table (loaded clock_2021_03_01 hire_table)) with (ns := 0).
  - apply load_loaded. vm_compute. reflexivity.
  - reflexivity.
  - vm_compute. eexists. reflexivity.
  - eapply first_row_loaded_in; [vm_compute|]; reflexivity.
  - vm_compute. reflexivity.
Defined.


Lemma filters_order_independent_witness :
  run_steps (rev (filter_steps (H := plain_pandas) search_an))
    (loaded clock_2021_03_01 hire_table)
  = apply_filters (H := plain_pandas) search_an (loaded clock_2021_03_01 hire_table).
Proof.
  apply (filters_order_independent (H := plain_pandas) clock_2021_03_01 hire_table).
  - apply load_loaded. vm_compute. reflexivity.
  - left. vm_compute. eexists. reflexivity.
  - apply Permutation_rev.
Defined.




(** * Further properties of [prepare_df] *)

Section prepare_more.
Context `{Pandas}.

Lemma to_datetime_cases x :
  to_datetime x = None ∨ ∃ t, to_datetime x = Some (VDate t).
Proof.
  destruct x as [[q|s|t]|]; simpl; eauto.
  - destruct (timestamp_of_number q); simpl; eauto.
  - destruct (parse_datetime s); simpl; eauto.
Qed.

Lemma prepare_row_date_cases w cols (r : Row) c :
  c ∈ DATE_COLS → is_Some (cols !! c) →
  prepare_row w cols r !! c = None ∨ ∃ t, prepare_row w cols r !! c = Some (VDate t).
Proof.
  intros Hc Hp. rewrite prepare_row_date by done. rewrite decide_True by done.
  apply to_datetime_cases.
Qed.

(** After [prepare_df], on a table that has a birth-date column, the age of
    a row is null when its birth date is null and otherwise the whole number
    [max 0 (days // 365)], never negative; likewise the tenure in months
    for the hire date.  The cells of both date columns are dates or null. *)
Theorem age_and_tenure_are_clamped w raw out :
  load w raw = Ok out →
  ∀ r : Row, r ∈ rows out →
    (is_Some (columns raw !! "Data de Nascimento"%string) →
       (r !! "Data de Nascimento"%string = None ∧ r !! "Idade"%string = None) ∨
       (∃ t n, r !! "Data de Nascimento"%string = Some (VDate t) ∧
               r !! "Idade"%string = Some (VNum (qz n)) ∧ 0 ≤ n ∧
               n = Z.max 0 (timedelta_days (Timestamp_of_date (date_today w)) t / 365))) ∧
    (is_Some (columns raw !! "Data de Contratacao"%string) →
       (r !! "Data de Contratacao"%string = None ∧
        r !! "Tempo de Casa (meses)"%string = None) ∨
       (∃ t n, r !! "Data de Contratacao"%string = Some (VDate t) ∧
               r !! "Tempo de Casa (meses)"%string = Some (VNum (qz n)) ∧ 0 ≤ n ∧
               n = Z.max 0 ((d_year (date_today w) - year t) * 12 +
                            (d_month (date_today w) - month t)))).
Proof.
  intros (_ & _ & Hrows)%load_Ok_inv r Hr.
  rewrite Hrows in Hr. apply list_elem_of_fmap in Hr as (r0 & -> & _).
  split; intros Hp.
  - assert (flag (columns raw) "Data de Nascimento" = true) as Hf
      by (by apply bool_decide_eq_true).
    destruct (prepare_row_date_cases w (columns raw) r0 "Data de Nascimento")
      as [E|[t E]]; [col_solver|done|..].
    + left. split; [done|]. unfold prepare_row in *.
      rewrite derive_row_idade by done. by rewrite E.
    + right. eexists t, _. split; [done|]. unfold prepare_row in *.
      rewrite derive_row_idade by done. rewrite E. simpl.
      split; [done|]. split; [lia|done].
  - assert (flag (columns raw) "Data de Contratacao" = true) as Hf
      by (by apply bool_decide_eq_true).
    destruct (prepare_row_date_cases w (columns raw) r0 "Data de Contratacao")
      as [E|[t E]]; [col_solver|done|..].
    + left. split; [done|]. unfold prepare_row in *.
      rewrite derive_row_meses by done. by rewrite E.
    + right. eexists t, _. split; [done|]. unfold prepare_row in *.
      rewrite derive_row_meses by done. rewrite E. simpl.
      split; [done|]. split; [lia|done].
Qed.

(** After [prepare_df] a row is "Desligado" exactly when the table has a
    termination-date column and the row's cell in it is not null; without
    that column every row is "Ativo". *)
Theorem status_follows_termination_date w raw out :
  load w raw = Ok out →
  ∀ r : Row, r ∈ rows out →
    (r !! "Status"%string = Some (VStr "Desligado") ↔
       is_Some (columns raw !! "Data de Demissao"%string) ∧
       r !! "Data de Demissao"%string ≠ None) ∧
    (columns raw !! "Data de Demissao"%string = None →
       r !! "Status"%string = Some (VStr "Ativo")).
Proof.
  intros (_ & _ & Hrows)%load_Ok_inv r Hr.
  rewrite Hrows in Hr. apply list_elem_of_fmap in Hr as (r0 & -> & _).
  unfold prepare_row. rewrite derive_row_status. unfold flag, notna.
  split.
  - split.
    + intros Hs. destruct (bool_decide (is_Some (columns raw !! _))) eqn:E1; [|done].
      destruct (bool_decide (is_Some (derive_row _ _ _ !! _))) eqn:E2; [|done].
      apply bool_decide_eq_true in E1, E2. split; [done|].
      intros Hn. rewrite Hn in E2. by destruct E2.
    + intros [Hc Hn]. rewrite bool_decide_eq_true_2 by done.
      rewrite bool_decide_eq_true_2; [done|].
      by destruct (derive_row _ _ _ !! "Data de Demissao"%string); [eexists|].
  - intros Hn. rewrite Hn.
    rewrite (bool_decide_eq_false_2 (is_Some None)) by (by intros [? ?]). done.
Qed.

Lemma insert_all_is_Some l d (m : gmap string Dtype) c :
  is_Some (m !! c) → is_Some (insert_all l d m !! c).
Proof. intros Hc. rewrite insert_all_lookup. by case_decide. Qed.

Lemma derive_cols_is_Some cols c :
  is_Some (cols !! c) → is_Some (derive_cols cols !! c).
Proof.
  intros Hc. unfold derive_cols. cbv zeta.
  repeat (apply lookup_insert_is_Some'; right).
  destruct (flag cols "Data de Contratacao"), (flag cols "Data de Nascimento");
    repeat (apply lookup_insert_is_Some'; right); done.
Qed.

Lemma prepare_row_other w cols (r : Row) c :
  c ∉ DATE_COLS → c ∉ CURRENCY_COLS → c ∉ DERIVED_COLS → c ≠ "Sexo"%string →
  prepare_row w cols r !! c = text_fix cols c (r !! c).
Proof.
  intros Hd Hc Hv Hs. unfold prepare_row.
  rewrite derive_row_other by done.
  rewrite update_row_lookup by apply NoDup_CURRENCY_COLS.
  rewrite decide_False by done. rewrite sexo_row_other by done.
  rewrite normalize_row_lookup. rewrite decide_False; [done|]. by intros [? _].
Qed.

Lemma prepare_cols_other cols c :
  c ∉ DATE_COLS → c ∉ CURRENCY_COLS → c ∉ DERIVED_COLS →
  derive_cols (cols_num (cols_datas cols)) !! c = cols !! c.
Proof.
  intros Hd Hc Hv. rewrite derive_cols_other by done.
  rewrite cols_num_other by done. by rewrite cols_datas_other.
Qed.

(** [prepare_df] only adds columns and never drops a row: every column of
    the input is a column of the table it returns, which has as many rows.
    A column that is not a text column and is none of the date, currency,
    sex and derived columns keeps its dtype and every one of its cells. *)
Theorem prepare_df_is_additive w raw out :
  load w raw = Ok out →
  (∀ c, is_Some (columns raw !! c) → is_Some (columns out !! c)) ∧
  List.length (rows out) = List.length (rows raw) ∧
  ∀ c d, columns raw !! c = Some d → d ≠ DObject →
    c ∉ DATE_COLS → c ∉ CURRENCY_COLS → c ∉ DERIVED_COLS → c ≠ "Sexo"%string →
    columns out !! c = Some d ∧
    Forall2 (λ r r' : Row, r' !! c = r !! c) (rows raw) (rows out).
Proof.
  intros (_ & Hcols & Hrows)%load_Ok_inv. split; [|split].
  - intros c Hc. rewrite Hcols.
    by apply derive_cols_is_Some, insert_all_is_Some, insert_all_is_Some.
  - rewrite Hrows. apply length_map.
  - intros c d Hc Hd H1 H2 H3 H4. split.
    + by rewrite Hcols, prepare_cols_other.
    + rewrite Hrows. apply Forall2_map_intro. intros r.
      rewrite prepare_row_other by done. unfold text_fix.
      rewrite decide_False; [done|]. rewrite Hc. by intros [= ->].
Qed.

(** *** Text columns *)

Lemma rstrip_idemp s : rstrip (rstrip s) = rstrip s.
Proof.
  induction s as [|a s IH]; [done|]. simpl.
  destruct (rstrip s) as [|b t] eqn:E.
  - destruct (is_space a) eqn:Ea; [done|]. simpl. by rewrite Ea.
  - change (rstrip (String a (String b t)))
      with (match rstrip (String b t) with
            | EmptyString => if is_space a then EmptyString else String a EmptyString
            | u => String a u
            end).
    by rewrite IH.
Qed.

Lemma lstrip_head s :
  match lstrip s with
  | EmptyString => True
  | String a _ => is_space a = false
  end.
Proof. induction s as [|a s IH]; [done|]. simpl. by destruct (is_space a) eqn:E. Qed.

Lemma rstrip_head s :
  match s with EmptyString => True | String a _ => is_space a = false end →
  match rstrip s with EmptyString => True | String a _ => is_space a = false end.
Proof.
  destruct s as [|a s]; [done|]. simpl. intros Ha.
  destruct (rstrip s); [by rewrite Ha|done].
Qed.

Lemma lstrip_id s :
  match s with EmptyString => True | String a _ => is_space a = false end →
  lstrip s = s.
Proof. destruct s as [|a s]; [done|]. simpl. by intros ->. Qed.

Lemma strip_idemp s : strip (strip s) = strip s.
Proof.
  unfold strip. rewrite (lstrip_id (rstrip (lstrip s))).
  - apply rstrip_idemp.
  - apply rstrip_head, lstrip_head.
Qed.

(** After [prepare_df] a text column holds a string in every row, never the
    null cell: the input cell turned into text with the white space around it
    removed.  A blank cell becomes the text "nan". *)
Theorem text_columns_hold_trimmed_strings w raw out :
  load w raw = Ok out →
  ∀ c, columns raw !! c = Some DObject →
    c ∉ DATE_COLS → c ∉ CURRENCY_COLS → c ∉ DERIVED_COLS → c ≠ "Sexo"%string →
    columns out !! c = Some DObject ∧
    Forall2 (λ r r' : Row,
      ∃ s, r' !! c = Some (VStr s) ∧
           s = strip (astype_str (r !! c)) ∧ strip s = s ∧
           (r !! c = None → s = "nan"%string))
      (rows raw) (rows out).
Proof.
  intros (_ & Hcols & Hrows)%load_Ok_inv c Hc H1 H2 H3 H4. split.
  - by rewrite Hcols, prepare_cols_other.
  - rewrite Hrows. apply Forall2_map_intro. intros r.
    rewrite prepare_row_other by done. unfold text_fix. rewrite decide_True by done.
    eexists. split; [done|]. split; [done|]. split; [apply strip_idemp|].
    by intros ->.
Qed.

(** After [prepare_df] a text "Sexo" column holds, in upper case and without
    surrounding white space, "M" for "MASCULINO", "F" for "FEMININO" and any
    other text as it is; letter case and padding of the input do not matter,
    and a blank cell becomes "NAN". *)
Theorem sexo_is_normalized w raw out :
  load w raw = Ok out →
  columns raw !! "Sexo"%string = Some DObject →
  columns out !! "Sexo"%string = Some DObject ∧
  Forall2 (λ r r' : Row,
    let u := upper (strip (astype_str (r !! "Sexo"%string))) in
    r' !! "Sexo"%string =
      Some (VStr (if decide (u = "MASCULINO"%string) then "M"%string
                  else if decide (u = "FEMININO"%string) then "F"%string else u)) ∧
    (r !! "Sexo"%string = None → r' !! "Sexo"%string = Some (VStr "NAN")))
    (rows raw) (rows out).
Proof.
  intros (_ & Hcols & Hrows)%load_Ok_inv Hs. split.
  - rewrite Hcols, prepare_cols_other by col_solver. done.
  - rewrite Hrows. apply Forall2_map_intro. intros r. unfold prepare_row.
    rewrite derive_row_other by col_solver.
    rewrite update_row_lookup by apply NoDup_CURRENCY_COLS.
    rewrite decide_False by col_solver.
    unfold sexo_row. rewrite Hs. rewrite set_cell_lookup, decide_True by done.
    rewrite normalize_row_lookup. rewrite decide_False by (intros [? _]; col_solver).
    unfold text_fix. rewrite decide_True by done. unfold text_cell. simpl.
    split.
    + repeat case_decide; done.
    + by intros ->.
Qed.

End prepare_more.

(** * Further properties of the filter script *)

Lemma select_sublist {A} (mask : list bool) (l : list A) : sublist (select mask l) l.
Proof.
  revert mask. induction l as [|x l IH]; intros [|b mask]; simpl;
    try apply sublist_nil_l.
  destruct b; [by apply sublist_skip|by apply sublist_cons].
Qed.

Lemma narrows_getitem_mask df mask :
  columns (getitem_mask df mask) = columns df ∧
  sublist (rows (getitem_mask df mask)) (rows df).
Proof. split; [done|]. apply select_sublist. Qed.

Lemma narrows_mask (m : DataFrame → result (list bool)) :
  narrows (λ df, rbind (m df) (λ mask, Ok (getitem_mask df mask))).
Proof.
  intros df out. destruct (m df) as [e|mask]; simpl; [done|].
  intros [= <-]. apply narrows_getitem_mask.
Qed.

Lemma narrows_run_steps steps : Forall narrows steps → narrows (run_steps steps).
Proof.
  induction 1 as [|s steps Hs _ IH]; intros df out; simpl.
  - by intros [= <-].
  - destruct (s df) as [e|df1] eqn:E1; simpl; [done|]. intros Hout.
    destruct (Hs _ _ E1) as [Hc1 Hr1]. destruct (IH _ _ Hout) as [Hc2 Hr2].
    split; [congruence|]. by etrans.
Qed.

Section filters_more.
Context `{Pandas}.

Lemma narrows_apply_in col values : narrows (λ df, Ok (apply_in df col values)).
Proof.
  intros df out [= <-]. unfold apply_in.
  destruct (_ && _); [apply narrows_getitem_mask|done].
Qed.

Lemma narrows_filter_nome busca : narrows (filter_nome busca).
Proof.
  intros df out. unfold filter_nome.
  destruct (columns df !! "Nome Completo"%string) as [d|]; [|by intros [= <-]].
  destruct (bool_decide _); [|by intros [= <-]].
  apply (narrows_mask (λ df, str_contains d busca (column df "Nome Completo"))).
Qed.

Lemma narrows_filter_faixa col faixa : narrows (filter_faixa col faixa).
Proof.
  intros df out. unfold filter_faixa.
  destruct faixa as [[lo hi]|]; [|by intros [= <-]].
  destruct (columns df !! col) as [d|]; [|by intros [= <-]].
  apply (narrows_mask (λ df, range_mask d lo hi (column df col))).
Qed.

Lemma narrows_filter_periodo col da db : narrows (filter_periodo col da db).
Proof.
  intros df out. unfold filter_periodo.
  destruct da as [a|]; [|by intros [= <-]].
  destruct db as [b|]; [|by intros [= <-]].
  destruct (columns df !! col) as [d|]; [|by intros [= <-]].
  apply (narrows_mask (λ df, period_mask d (Timestamp_of_date a) (Timestamp_of_date b)
                               (column df col))).
Qed.

(** The filter script never alters the table it filters: when it returns, the
    result has the same columns and its rows are rows of the input, in
    their original order. *)
Theorem filters_only_remove_rows f df out :
  apply_filters f df = Ok out →
  columns out = columns df ∧ sublist (rows out) (rows df).
Proof.
  rewrite apply_filters_steps. apply narrows_run_steps. unfold filter_steps.
  repeat (apply List.Forall_cons; [first
    [ apply narrows_apply_in | apply narrows_filter_nome
    | apply narrows_filter_faixa | apply narrows_filter_periodo ]|]).
  apply List.Forall_nil.
Qed.

End filters_more.

(** * The widgets at their defaults, and the filters they configure *)

Lemma qc_min_le_l a b : (qc_min a b ≤ a)%Qc.
Proof.
  unfold qc_min. case_bool_decide as Hab; [apply Qcle_refl|].
  apply Qclt_le_weak. by apply Qclt_nge.
Qed.

Lemma qc_min_le_r a b : (qc_min a b ≤ b)%Qc.
Proof. unfold qc_min. case_bool_decide; [done|apply Qcle_refl]. Qed.

Lemma qc_max_ge_l a b : (a ≤ qc_max a b)%Qc.
Proof. unfold qc_max. case_bool_decide; [done|apply Qcle_refl]. Qed.

Lemma qc_max_ge_r a b : (b ≤ qc_max a b)%Qc.
Proof.
  unfold qc_max. case_bool_decide as Hab; [apply Qcle_refl|].
  apply Qclt_le_weak. by apply Qclt_nge.
Qed.

Lemma foldl_qc_min_le xs x y : y ∈ x :: xs → (foldl qc_min x xs ≤ y)%Qc.
Proof.
  revert x y. induction xs as [|a xs IH]; intros x y Hy; simpl.
  - apply list_elem_of_singleton in Hy as ->. apply Qcle_refl.
  - apply elem_of_cons in Hy as [->|Hy].
    + eapply Qcle_trans; [apply IH; by left|apply qc_min_le_l].
    + apply elem_of_cons in Hy as [->|Hy].
      * eapply Qcle_trans; [apply IH; by left|apply qc_min_le_r].
      * apply IH. by right.
Qed.

Lemma foldl_qc_max_ge xs x y : y ∈ x :: xs → (y ≤ foldl qc_max x xs)%Qc.
Proof.
  revert x y. induction xs as [|a xs IH]; intros x y Hy; simpl.
  - apply list_elem_of_singleton in Hy as ->. apply Qcle_refl.
  - apply elem_of_cons in Hy as [->|Hy].
    + eapply Qcle_trans; [apply qc_max_ge_l|apply IH; by left].
    + apply elem_of_cons in Hy as [->|Hy].
      * eapply Qcle_trans; [apply qc_max_ge_r|apply IH; by left].
      * apply IH. by right.
Qed.

Lemma foldl_qc_min_in xs x : foldl qc_min x xs ∈ x :: xs.
Proof.
  revert x. induction xs as [|a xs IH]; intros x; simpl; [by left|].
  specialize (IH (qc_min x a)). apply elem_of_cons in IH as [->|IH].
  - unfold qc_min. case_bool_decide; [by left|right; by left].
  - by do 2 right.
Qed.

Lemma foldl_qc_max_in xs x : foldl qc_max x xs ∈ x :: xs.
Proof.
  revert x. induction xs as [|a xs IH]; intros x; simpl; [by left|].
  specialize (IH (qc_max x a)). apply elem_of_cons in IH as [->|IH].
  - unfold qc_max. case_bool_decide; [right; by left|by left].
  - by do 2 right.
Qed.

Lemma elem_of_present {A} (s : list (option A)) x : x ∈ present s ↔ Some x ∈ s.
Proof.
  unfold present. rewrite list_elem_of_omap. split.
  - intros (o & Ho & Hid). simpl in Hid. by subst.
  - intros Hx. by exists (Some x).
Qed.

(** The bounds [min_max] returns enclose every value of the series and are
    values of the series. *)
Lemma min_max_spec s lo hi :
  min_max s = Some (lo, hi) →
  Some lo ∈ s ∧ Some hi ∈ s ∧ ∀ q, Some q ∈ s → (lo ≤ q)%Qc ∧ (q ≤ hi)%Qc.
Proof.
  unfold min_max. destruct (present s) as [|x xs] eqn:E; [done|]. intros [= <- <-].
  split; [|split].
  - apply elem_of_present. rewrite E. apply foldl_qc_min_in.
  - apply elem_of_present. rewrite E. apply foldl_qc_max_in.
  - intros q Hq%elem_of_present. rewrite E in Hq.
    split; [by apply foldl_qc_min_le|by apply foldl_qc_max_ge].
Qed.

Lemma min_max_None s : min_max s = None ↔ ∀ x, x ∈ s → x = None.
Proof.
  unfold min_max. destruct (present s) as [|x xs] eqn:E; split; try done.
  - intros _ [q|] Hq; [|done]. apply elem_of_present in Hq. rewrite E in Hq.
    by apply elem_of_nil in Hq.
  - intros Hall. assert (x ∈ present s) as Hx by (rewrite E; by left).
    apply elem_of_present in Hx. by apply Hall in Hx.
Qed.

Lemma filter_all {A} (p : A → bool) (l : list A) :
  (∀ x, x ∈ l → p x = true) → List.filter p l = l.
Proof.
  induction l as [|x l IH]; intros Hp; [done|]. simpl.
  rewrite Hp by (by left). rewrite IH; [done|]. intros y Hy. apply Hp. by right.
Qed.

Lemma filter_rows_all p df :
  (∀ r, r ∈ rows df → p r = true) → filter_rows p df = df.
Proof. intros Hp. destruct df as [cs rs]. unfold filter_rows. simpl. by rewrite filter_all. Qed.

Lemma filter_rows_ext p q df :
  (∀ r, r ∈ rows df → p r = q r) → filter_rows p df = filter_rows q df.
Proof.
  intros Hp. unfold filter_rows. f_equal. apply List.filter_ext_in.
  intros r Hr. apply Hp. by apply list_elem_of_In.
Qed.

Section widget_claims.
Context `{Pandas}.
Variable int_bounds_object : list Cell → result (Qc * Qc).
Variable float_bounds_object : list Cell → result (Qc * Qc).

Lemma loaded_salary w raw out :
  load w raw = Ok out →
  columns out !! "Salario Base"%string = Some DNumber ∧
  ∀ r : Row, r ∈ rows out → ∃ q, r !! "Salario Base"%string = Some (VNum q).
Proof.
  intros (_ & Hcols & Hrows)%load_Ok_inv. split.
  - rewrite Hcols, derive_cols_other by col_solver.
    by rewrite cols_num_currency by col_solver.
  - intros r Hr. rewrite Hrows in Hr. apply list_elem_of_fmap in Hr as (r0 & -> & _).
    rewrite prepare_row_currency by col_solver. apply currency_cell_number.
Qed.

Lemma filter_faixa_number col lo hi df :
  columns df !! col = Some DNumber →
  filter_faixa col (Some (lo, hi)) df =
  Ok (filter_rows (λ r, match r !! col with
                        | Some (VNum q) => in_range lo hi q
                        | _ => false
                        end) df).
Proof.
  intros Hd. unfold filter_faixa. rewrite Hd. simpl.
  by rewrite (getitem_mask_column df col
    (λ c, match c with Some (VNum q) => in_range lo hi q | _ => false end)).
Qed.

(** On a table returned by [prepare_df] that has rows, the salary slider
    starts at the smallest and largest base salary, and the salary filter
    with that range keeps the whole table. *)
Theorem default_salary_range_keeps_all w raw out :
  load w raw = Ok out → rows out ≠ [] →
  ∃ lo hi,
    default_faixa_sal float_bounds_object out = Ok (Some (lo, hi)) ∧
    filter_faixa "Salario Base" (Some (lo, hi)) out = Ok out.
Proof.
  intros Hl Hne. destruct (loaded_salary _ _ _ Hl) as [Hd Hnum].
  assert (∃ r : Row, r ∈ rows out) as [r0 Hr0].
  { destruct (rows out) as [|r rs]; [done|]. exists r. by left. }
  destruct (Hnum r0 Hr0) as [q0 Hq0].
  assert (Some q0 ∈ number_series out "Salario Base") as Hin0.
  { unfold number_series, column. apply list_elem_of_fmap. exists (Some (VNum q0)).
    split; [done|]. apply list_elem_of_fmap. by exists r0. }
  destruct (min_max (number_series out "Salario Base")) as [[lo hi]|] eqn:Emm.
  2: { exfalso. by pose proof (proj1 (min_max_None _) Emm _ Hin0). }
  exists lo, hi. split.
  - unfold default_faixa_sal. rewrite Hd.
    destruct (dropna (column out "Salario Base")) as [|c cs] eqn:Ed; [|by rewrite Emm].
    exfalso. assert (Some (VNum q0) ∈ dropna (column out "Salario Base")) as Hc.
    { unfold dropna. apply list_elem_of_In, List.filter_In. split; [|done].
      apply list_elem_of_In, list_elem_of_fmap. by exists r0. }
    rewrite Ed in Hc. by apply elem_of_nil in Hc.
  - rewrite filter_faixa_number by done. f_equal. apply filter_rows_all.
    intros r Hr. destruct (Hnum r Hr) as [q Hq]. rewrite Hq.
    destruct (min_max_spec _ _ _ Emm) as (_ & _ & Hb).
    destruct (Hb q) as [H1 H2].
    { unfold number_series, column. apply list_elem_of_fmap. exists (Some (VNum q)).
      split; [done|]. apply list_elem_of_fmap. by exists r. }
    unfold in_range. by rewrite !bool_decide_eq_true_2.
Qed.

Lemma py_int_qz n : py_int (qz n) = n.
Proof.
  unfold py_int. case_bool_decide; [apply Qfloor_Z|apply Qceiling_Z].
Qed.

Lemma loaded_idade w raw out :
  load w raw = Ok out →
  is_Some (columns raw !! "Data de Nascimento"%string) →
  columns out !! "Idade"%string = Some DNumber ∧
  ∀ r : Row, r ∈ rows out →
    r !! "Idade"%string = None ∨ ∃ n, r !! "Idade"%string = Some (VNum (qz n)).
Proof.
  intros (_ & Hcols & Hrows)%load_Ok_inv Hb.
  assert (flag (columns raw) "Data de Nascimento" = true) as Hf
    by (by apply bool_decide_eq_true).
  split.
  - rewrite Hcols, derive_cols_idade.
    rewrite flag_cols_num by col_solver. by rewrite flag_cols_datas, Hf.
  - intros r Hr. rewrite Hrows in Hr. apply list_elem_of_fmap in Hr as (r0 & -> & _).
    unfold prepare_row. rewrite derive_row_idade by done.
    destruct (derive_row _ _ _ !! "Data de Nascimento"%string) as [[q|s|t]|];
      simpl; eauto.
Qed.

(** On a table returned by [prepare_df] from an input with a birth-date
    column, the age slider is absent exactly when no row has an age;
    otherwise the age filter with the slider's initial range keeps the rows
    that have an age and drops every row whose age is null. *)
Theorem default_age_range_drops_unknown_ages w raw out :
  load w raw = Ok out →
  is_Some (columns raw !! "Data de Nascimento"%string) →
  (default_faixa_idade int_bounds_object out = Ok None ↔
     ∀ r : Row, r ∈ rows out → r !! "Idade"%string = None) ∧
  ∀ lo hi, default_faixa_idade int_bounds_object out = Ok (Some (lo, hi)) →
    filter_faixa "Idade" (Some (lo, hi)) out =
    Ok (filter_rows (λ r, notna (r !! "Idade"%string)) out).
Proof.
  intros Hl Hb. destruct (loaded_idade _ _ _ Hl Hb) as [Hd Hage].
  assert (∀ c, c ∈ dropna (column out "Idade") ↔
               ∃ r : Row, r ∈ rows out ∧ r !! "Idade"%string = c ∧ c ≠ None) as Hdrop.
  { intros c. unfold dropna, column. split.
    - intros Hc. apply list_elem_of_In, List.filter_In in Hc as [Hc Hs].
      apply list_elem_of_In, list_elem_of_fmap in Hc as (r & -> & Hr).
      exists r. split; [done|]. split; [done|].
      intros Hn. rewrite Hn in Hs. done.
    - intros (r & Hr & <- & Hn). apply list_elem_of_In, List.filter_In. split.
      + apply list_elem_of_In, list_elem_of_fmap. by exists r.
      + unfold notna. apply bool_decide_eq_true.
        by destruct (r !! "Idade"%string); [eexists|]. }
  assert (∀ q, Some q ∈ number_series out "Idade" → ∃ n, q = qz n) as Hint.
  { intros q. unfold number_series, column.
    intros (c & Hq & Hc)%list_elem_of_fmap.
    apply list_elem_of_fmap in Hc as (r & -> & Hr).
    destruct (Hage r Hr) as [E|[n E]]; rewrite E in Hq; [done|].
    injection Hq as ->. by exists n. }
  unfold default_faixa_idade. rewrite Hd. split.
  - destruct (dropna (column out "Idade")) as [|c cs] eqn:Ed.
    + split; [|done]. intros _ r Hr.
      destruct (r !! "Idade"%string) as [v|] eqn:E; [|done].
      exfalso. assert (Some v ∈ @nil Cell) as Hc by (apply Hdrop; by exists r).
      by apply elem_of_nil in Hc.
    + assert (c ∈ c :: cs) as Hc by (by left).
      apply Hdrop in Hc as (r & Hr & E & Hn).
      split.
      * intros Hnone. exfalso.
        destruct (Hage r Hr) as [E'|[n E']]; [congruence|].
        destruct (min_max (number_series out "Idade")) as [[lo hi]|] eqn:Emm; [done|].
        assert (Some (qz n) ∈ number_series out "Idade") as Hin.
        { unfold number_series, column. apply list_elem_of_fmap.
          exists (Some (VNum (qz n))). split; [done|]. apply list_elem_of_fmap. by exists r. }
        by pose proof (proj1 (min_max_None _) Emm _ Hin).
      * intros Hall. exfalso. apply Hn. rewrite <- E. by apply Hall.
  - intros lo hi. destruct (dropna (column out "Idade")) as [|c cs]; [done|].
    destruct (min_max (number_series out "Idade")) as [[lo' hi']|] eqn:Emm; [|done].
    intros [= <- <-]. destruct (min_max_spec _ _ _ Emm) as (Hlo & Hhi & Hb').
    destruct (Hint _ Hlo) as [nlo ->]. destruct (Hint _ Hhi) as [nhi ->].
    rewrite !py_int_qz. rewrite filter_faixa_number by done. f_equal.
    apply filter_rows_ext. intros r Hr.
    destruct (Hage r Hr) as [E|[n E]]; rewrite E; [done|].
    destruct (Hb' (qz n)) as [H1 H2].
    { unfold number_series, column. apply list_elem_of_fmap.
      exists (Some (VNum (qz n))). split; [done|]. apply list_elem_of_fmap. by exists r. }
    unfold in_range, notna. rewrite !bool_decide_eq_true_2; [done|by eexists|done|done].
Qed.

End widget_claims.

(** * The further properties on the example tables *)

Lemma age_and_tenure_are_clamped_witness :
  ∃ n, first_row (loaded clock_2021_03_01 hire_table) !! "Idade"%string
         = Some (VNum (qz n)) ∧ 0 ≤ n.
Proof.
  assert (load (H := plain_pandas) clock_2021_03_01 hire_table
          = Ok (loaded clock_2021_03_01 hire_table)) as Hl.
  { apply load_loaded. vm_compute. reflexivity. }
  destruct (age_and_tenure_are_clamped (H := plain_pandas) clock_2021_03_01 hire_table
              (loaded clock_2021_03_01 hire_table) Hl
              (first_row (loaded clock_2021_03_01 hire_table))) as [Hage _].
  { eapply first_row_loaded_in; [vm_compute|]; reflexivity. }
  destruct Hage as [[E _]|(t & n & _ & E & Hn & _)].
  - vm_compute. eexists. reflexivity.
  - vm_compute in E. discriminate E.
  - exists n. split; [exact E|exact Hn].
Defined.

Lemma status_follows_termination_date_witness :
  first_row (loaded clock_2021_03_01 hire_table) !! "Status"%string
  = Some (VStr "Ativo").
Proof.
  apply (status_follows_termination_date (H := plain_pandas) clock_2021_03_01 hire_table
           (loaded clock_2021_03_01 hire_table)).
  - apply load_loaded. vm_compute. reflexivity.
  - eapply first_row_loaded_in; [vm_compute|]; reflexivity.
  - vm_compute. reflexivity.
Defined.

Lemma prepare_df_is_additive_witness :
  columns (loaded clock_2021_03_01 sexo_text_table) !! "Ramal"%string = Some DNumber.
Proof.
  assert (load (H := plain_pandas) clock_2021_03_01 sexo_text_table
          = Ok (loaded clock_2021_03_01 sexo_text_table)) as Hl.
  { apply load_loaded. vm_compute. reflexivity. }
  apply (proj2 (proj2 (prepare_df_is_additive (H := plain_pandas) clock_2021_03_01
           sexo_text_table (loaded clock_2021_03_01 sexo_text_table) Hl))
           "Ramal"%string DNumber).
  - vm_compute. reflexivity.
  - intros [=].
  - col_solver.
  - col_solver.
  - col_solver.
  - intros [=].
Defined.
